(** * Real-time Whisper front end: buffer, chunk worker, output policy, timing

    A shallow embedding of [src/app/app_hailo_whisper.py] and
    [src/common/timing_utils.py].

    Conventions of the embedding:
    - Python [float] values (samples, durations, onsets) are exact rationals
      [Q]; rounding, infinities and NaN are outside the model.
    - Python [str] is a list of Unicode code points.
    - An exception is represented by its message ([str(e)]).
    - Code running under [buffer_lock] is one atomic step; a session is a
      finite interleaving of capture callbacks and worker iterations. *)

From Stdlib Require Import String Ascii Bool ZArith QArith Qabs Qminmax List Lia.
Import ListNotations.

Set Implicit Arguments.

(** ** Python values *)

Definition pychar := N.
Definition pystr := list pychar.

(** A string literal of the source (ASCII only). *)
Definition lit (s : string) : pystr := map N_of_ascii (list_ascii_of_string s).

Definition newline : pystr := [10%N].

(** [str.isspace] on one code point. *)
Definition isspace (c : pychar) : bool :=
  ((9 <=? c) && (c <=? 13) || (28 <=? c) && (c <=? 32) || (c =? 133) || (c =? 160)
   || (c =? 5760) || (8192 <=? c) && (c <=? 8202) || (c =? 8232) || (c =? 8233)
   || (c =? 8239) || (c =? 8287) || (c =? 12288))%N.

Fixpoint lstrip (s : pystr) : pystr :=
  match s with
  | [] => []
  | c :: r => if isspace c then lstrip r else s
  end.

Definition rstrip (s : pystr) : pystr := rev (lstrip (rev s)).

(** [s.strip()] *)
Definition strip (s : pystr) : pystr := rstrip (lstrip s).

Fixpoint pystr_eqb (a b : pystr) : bool :=
  match a, b with
  | [], [] => true
  | x :: a', y :: b' => (x =? y)%N && pystr_eqb a' b'
  | _, _ => false
  end.

(** Truth value of a string: non-empty. *)
Definition truthy (s : pystr) : bool :=
  match s with [] => false | _ :: _ => true end.

Definition exn := pystr.

Inductive result (A : Type) : Type :=
| Ok (a : A)
| Raise (e : exn).
Arguments Ok {A} a.
Arguments Raise {A} e.

(** [int(x)]: truncation toward zero. *)
Definition py_int (x : Q) : Z := Z.quot (Qnum x) (Z.pos (Qden x)).

(** [x < y] on floats, as a boolean. *)
Definition Qlt_bool (x y : Q) : bool := (Qnum x * QDen y <? Qnum y * QDen x)%Z.

Definition sample := Q.

(** [np.max(np.abs(a))]; the reduction raises [ValueError] on an empty array. *)
Definition np_max_abs (a : list sample) : result Q :=
  match a with
  | [] => Raise (lit "zero-size array to reduction operation maximum which has no identity")
  | x :: r => Ok (fold_left Qmax (map Qabs r) (Qabs x))
  end.

(** ** common/timing_utils.py *)

Module timing_utils.

Section Timing.
(** What a decorated function can see and change: the module flag
    [SHOW_TIMING], the clock, standard output, and a heap of its own. *)
Variable heap : Type.

Record world := World {
  SHOW_TIMING : bool;
  clock : Q;
  stdout : list pystr;
  user : heap
}.

(** Rendering of [f"[{func.__name__}] {end_time - start_time:.3f}s"]. *)
Variable format_timing : pystr -> Q -> pystr.

Definition set_timing_display (show_timing : bool) (w : world) : world :=
  World show_timing (clock w) (stdout w) (user w).

Definition timed_print (message : pystr) (w : world) : world :=
  if SHOW_TIMING w
  then World (SHOW_TIMING w) (clock w) (stdout w ++ [message]) (user w)
  else w.

(** [time.time()] *)
Definition time_time (w : world) : Q := clock w.

Variables args ret : Type.

(** A Python callable: from arguments and the world to a result (or an
    exception) and the world it leaves. *)
Definition pyfun := args -> world -> result ret * world.

Definition time_function (name : pystr) (func : pyfun) : pyfun :=
  fun a w =>
    if SHOW_TIMING w then
      let start_time := time_time w in
      match func a w with
      | (Ok res, w1) =>
          let end_time := time_time w1 in
          (Ok res, timed_print (format_timing name (end_time - start_time)) w1)
      | (Raise e, w1) => (Raise e, w1)
      end
    else func a w.

End Timing.

End timing_utils.

(** ** app/app_hailo_whisper.py *)

Module app_hailo_whisper.

(** The names the module imports from the rest of the package and from the
    Hailo runtime. Their code is not part of this development: each is an
    arbitrary function that may raise. The inference pipeline keeps a state
    of its own ([backend]), which [send_data] and [get_transcription]
    update. *)
Class Collaborators := {
  mel : Type;
  backend : Type;
  SAMPLE_RATE : Z;
  improve_input_audio : list sample -> bool -> bool -> result (list sample * option Q);
  preprocess : list sample -> bool -> Q -> Q -> result (list mel);
  send_data : mel -> backend -> result unit * backend;
  get_transcription : backend -> result pystr * backend;
  clean_transcription : pystr -> result pystr;
  astype_float32 : list sample -> list sample;
  mel_astype_float32 : mel -> mel
}.

(** Arguments of [real_time_stt] after the pipeline. *)
Record Config := {
  is_nhwc : bool;
  chunk_length : Q;
  fast_mode : bool;
  stream_output : bool;
  timing : bool
}.

(** One block delivered by the audio driver: [indata] has one row per frame;
    a row holds channel 0 and the remaining channels. *)
Definition row := (sample * list sample)%type.

(** [indata[:, 0]] *)
Definition column0 (indata : list row) : list sample := map fst indata.

Section Worker.
Context {C : Collaborators}.
Variable cfg : Config.

(** Everything the session does that is visible outside it, in order. A
    call of a collaborator is recorded when it is made, before its result or
    its exception is known. *)
Inductive event :=
| EvTrim (audio_chunk : list sample) (vad low_audio_gain : bool)
| EvPreprocess (audio : list sample) (nhwc : bool) (chunk_len chunk_offset : Q)
| EvSend (m : mel)
| EvPoll
| EvClean (raw : pystr)
| EvSleep (seconds : Q)
| EvPrint (text end_ : pystr).

(** *** Effects of the [try] block: pipeline state, exceptions, events *)

Definition M (A : Type) : Type := backend -> result A * backend * list event.

Definition ret {A} (a : A) : M A := fun hw => (Ok a, hw, []).

Definition bind {A B} (m : M A) (k : A -> M B) : M B :=
  fun hw =>
    match m hw with
    | (Ok a, hw1, t1) =>
        match k a hw1 with (r, hw2, t2) => (r, hw2, t1 ++ t2) end
    | (Raise e, hw1, t1) => (Raise e, hw1, t1)
    end.

Definition try_except {A} (body : M A) (handler : exn -> M A) : M A :=
  fun hw =>
    match body hw with
    | (Ok a, hw1, t1) => (Ok a, hw1, t1)
    | (Raise e, hw1, t1) =>
        match handler e hw1 with (r, hw2, t2) => (r, hw2, t1 ++ t2) end
    end.

Definition log (e : event) : M unit := fun hw => (Ok tt, hw, [e]).

Definition lift {A} (r : result A) : M A := fun hw => (r, hw, []).

Definition print (text end_ : pystr) : M unit := log (EvPrint text end_).

Definition time_sleep (seconds : Q) : M unit := log (EvSleep seconds).

Local Notation "x <- m ;; k" := (bind m (fun x => k))
  (at level 61, m at next level, right associativity).
Local Notation "m ;; k" := (bind m (fun _ => k))
  (at level 61, right associativity).

(** *** The shared buffer *)

(** [int(chunk_length * SAMPLE_RATE)] *)
Definition required_samples : Z :=
  py_int (chunk_length cfg * inject_Z SAMPLE_RATE).

(** Body of [audio_callback] under the lock. *)
Definition append (audio_buffer : list sample) (indata : list row) : list sample :=
  audio_buffer ++ column0 indata.

(** Body of the worker's [with buffer_lock] block: the chunk ([None] when
    the guard fails) and the buffer it leaves. *)
Definition try_extract (required : Z) (audio_buffer : list sample)
  : option (list sample) * list sample :=
  if (required <=? Z.of_nat (length audio_buffer))%Z && (0 <? required)%Z
  then (Some (firstn (Z.to_nat required) audio_buffer),
        skipn (Z.to_nat required) audio_buffer)
  else (None, audio_buffer).

(** *** Processing of one chunk *)

(** Lines 166-171: the offset handed to [preprocess]. *)
Definition chunk_offset_of (start_time : option Q) : Q :=
  match start_time with
  | Some t =>
      let chunk_offset := t - (2 # 10) in
      if Qlt_bool chunk_offset 0 then 0 else chunk_offset
  | None => 0
  end.

(** [transcription.strip() and transcription.strip() != "."] *)
Definition meaningful (transcription : pystr) : bool :=
  truthy (strip transcription) && negb (pystr_eqb (strip transcription) (lit ".")).

Fixpoint stream_chars (transcription : pystr) : M unit :=
  match transcription with
  | [] => ret tt
  | char :: rest =>
      print [char] [] ;;
      time_sleep (1 # 100) ;;
      stream_chars rest
  end.

(** Lines 189-209: what is printed for one transcription. *)
Definition output_transcription (transcription : pystr) (improved_audio : list sample)
  : M unit :=
  if meaningful transcription then
    if stream_output cfg then
      print (lit "[Transcription] ") [] ;;
      stream_chars transcription ;;
      print [] newline
    else
      print (lit "[Transcription] " ++ transcription) newline
  else if pystr_eqb (strip transcription) (lit ".") then
    ret tt
  else
    peak <- lift (np_max_abs improved_audio) ;;
    if Qlt_bool (5 # 100) peak then
      if stream_output cfg
      then print (lit "[Transcription] (unclear)") []
      else print (lit "[Transcription] (unclear audio)") newline
    else ret tt.

(** Lines 183-209: one turn of [for mel in mel_spectrograms]. *)
Definition process_frame (improved_audio : list sample) (m : mel) : M unit :=
  log (EvSend (mel_astype_float32 m)) ;;
  (fun hw => let (r, hw1) := send_data (mel_astype_float32 m) hw in (r, hw1, [])) ;;
  time_sleep (5 # 100) ;;
  log EvPoll ;;
  raw_transcription <- (fun hw => let (r, hw1) := get_transcription hw in (r, hw1, [])) ;;
  log (EvClean raw_transcription) ;;
  transcription <- lift (clean_transcription raw_transcription) ;;
  output_transcription transcription improved_audio.

Fixpoint for_mel (improved_audio : list sample) (mel_spectrograms : list mel) : M unit :=
  match mel_spectrograms with
  | [] => ret tt
  | m :: rest => process_frame improved_audio m ;; for_mel improved_audio rest
  end.

(** Lines 161-209: the body of the [try]. *)
Definition try_body (audio_chunk : list sample) : M unit :=
  let use_vad := negb (fast_mode cfg) in
  log (EvTrim audio_chunk use_vad true) ;;
  trimmed <- lift (improve_input_audio audio_chunk use_vad true) ;;
  let improved_audio := fst trimmed in
  let start_time := snd trimmed in
  let chunk_offset := chunk_offset_of start_time in
  log (EvPreprocess (astype_float32 improved_audio) (is_nhwc cfg)
         (chunk_length cfg) chunk_offset) ;;
  mel_spectrograms <-
    lift (preprocess (astype_float32 improved_audio) (is_nhwc cfg)
            (chunk_length cfg) chunk_offset) ;;
  for_mel improved_audio mel_spectrograms.

(** Lines 160-211: [try: ... except Exception as e: print(f"Error: {e}")]. *)
Definition process_chunk (audio_chunk : list sample) : M unit :=
  try_except (try_body audio_chunk)
             (fun e => print (lit "Error: " ++ e) newline).

(** *** The session *)

Record session := Session {
  audio_buffer : list sample;
  hw : backend;
  chunks_processed : nat;
  trace : list event
}.

(** [audio_callback(indata, frames, time, status)]; [status] is [None]
    when no flag is set and its rendering otherwise. *)
Definition audio_callback (indata : list row) (status : option pystr) (s : session)
  : session :=
  let t := match status with
           | Some flags => [EvPrint (lit "Audio status: " ++ flags) newline]
           | None => []
           end in
  Session (append (audio_buffer s) indata) (hw s) (chunks_processed s) (trace s ++ t).

(** One turn of [while True] in [transcription_worker]. *)
Definition transcription_worker (s : session) : session :=
  let (audio_chunk, rest) := try_extract required_samples (audio_buffer s) in
  let s1 :=
    match audio_chunk with
    | Some chunk =>
        if (0 <? length chunk)%nat then
          match process_chunk chunk (hw s) with
          | (_, hw1, t) => Session rest hw1 (S (chunks_processed s)) (trace s ++ t)
          end
        else Session rest (hw s) (chunks_processed s) (trace s)
    | None => Session rest (hw s) (chunks_processed s) (trace s)
    end in
  Session (audio_buffer s1) (hw s1) (chunks_processed s1)
          (trace s1 ++ [EvSleep (1 # 100)]).

(** What the two threads do, one atomic step at a time. A worker iteration
    holds the lock only while it extracts; the processing that follows does
    not read or write the buffer, so a callback that runs during the
    processing leaves the same buffer as one that runs right after it, and
    the iteration is taken as one step. *)
Inductive step :=
| Capture (indata : list row) (status : option pystr)
| Work.

Definition run_step (s : session) (st : step) : session :=
  match st with
  | Capture indata status => audio_callback indata status s
  | Work => transcription_worker s
  end.

(** Lines 121-128 and 228: the banner and the empty buffer. *)
Definition banner : list event :=
  [ EvPrint ([127897; 65039]%N ++ lit "  Real-time speech-to-text started") newline;
    EvPrint ([128483; 65039]%N ++ lit "  Please speak into the microphone") newline;
    EvPrint ([9209; 65039]%N ++ lit "  Press Ctrl+C to stop") newline;
    EvPrint (lit "----------------------------------------") newline;
    EvPrint ([127911]%N ++ lit " Listening...") newline ].

Definition session_start (whisper_hailo : backend) : session :=
  Session [] whisper_hailo 0 banner.

(** [real_time_stt] up to the interrupt, along a schedule of steps. *)
Definition real_time_stt (whisper_hailo : backend) (schedule : list step) : session :=
  fold_left run_step schedule (session_start whisper_hailo).

End Worker.

Arguments event {C}.
Arguments session {C}.

(** *** Start-up: [get_args], [get_hef_path], [main] *)

Inductive variant := base | tiny | tiny_en.
Inductive hw_arch := hailo8 | hailo8l.
Inductive component := encoder | decoder.

Definition variant_str (v : variant) : pystr :=
  match v with
  | base => lit "base"
  | tiny => lit "tiny"
  | tiny_en => lit "tiny.en"
  end.

Definition hw_arch_str (h : hw_arch) : pystr :=
  match h with
  | hailo8 => lit "hailo8"
  | hailo8l => lit "hailo8l"
  end.

(** The namespace returned by [get_args]: [--variant] and [--hw-arch] are
    restricted by [choices]; [--chunk-length] is any float, or absent. *)
Record Args := {
  reuse_audio : bool;
  args_hw_arch : hw_arch;
  args_variant : variant;
  multi_process_service : bool;
  real_time : bool;
  args_fast_mode : bool;
  args_stream_output : bool;
  args_timing : bool;
  args_chunk_length : option Q
}.

Fixpoint startswith (prefix s : pystr) : bool :=
  match prefix, s with
  | [], _ => true
  | p :: prefix', c :: s' => (p =? c)%N && startswith prefix' s'
  | _ :: _, [] => false
  end.

(** [needle in s] on strings. *)
Fixpoint pystr_in (needle s : pystr) : bool :=
  startswith needle s ||
  match s with
  | [] => false
  | _ :: s' => pystr_in needle s'
  end.

(** What start-up needs from the machine: the HEF table of
    [app.whisper_hef_registry], the file system, and the constructor of the
    pipeline. *)
Class Platform {C : Collaborators} := {
  HEF_REGISTRY : variant -> hw_arch -> component -> option pystr;
  os_path_exists : pystr -> bool;
  HailoWhisperPipeline : pystr -> pystr -> variant -> bool -> result backend
}.

Section Main.
Context {C : Collaborators} {P : Platform}.

Definition get_hef_path (model_variant : variant) (arch : hw_arch) (comp : component)
  : result pystr :=
  match HEF_REGISTRY model_variant arch comp with
  | None =>
      Raise (lit "HEF not available for model '" ++ variant_str model_variant
             ++ lit "' on hardware '" ++ hw_arch_str arch ++ lit "'.")
  | Some hef_path =>
      if os_path_exists hef_path then Ok hef_path
      else Raise (lit "HEF file not found at: " ++ hef_path ++ newline
                  ++ lit "If not done yet, please run python3 ./download_resources.py --hw-arch "
                  ++ hw_arch_str arch
                  ++ lit " from the app/ folder to download the required HEF files.")
  end.

(** Lines 264-268. *)
Definition real_time_chunk_length (args : Args) : Q :=
  match args_chunk_length args with
  | Some c => c
  | None => if pystr_in (lit "tiny") (variant_str (args_variant args)) then 10 else 5
  end.

(** How far [main] gets before its first loop. *)
Inductive startup :=
| Fatal (e : exn)
| RealTime (whisper_hailo : backend) (cfg : Config)
| Batch (whisper_hailo : backend) (chunk_len : Q).

(** [main] up to the call of [real_time_stt] (or the batch loop, which is
    not modelled further): the lines printed and the outcome. An exception
    of [get_hef_path] or of the constructor is not caught. The call
    [set_timing_display(args.timing)] of line 252 only assigns the flag of
    timing_utils and is left out. *)
Definition main (args : Args) : list pystr * startup :=
  let variant := args_variant args in
  let out0 := [lit "Selected variant: Whisper " ++ variant_str variant] in
  match get_hef_path variant (args_hw_arch args) encoder with
  | Raise e => (out0, Fatal e)
  | Ok encoder_path =>
    match get_hef_path variant (args_hw_arch args) decoder with
    | Raise e => (out0, Fatal e)
    | Ok decoder_path =>
      match HailoWhisperPipeline encoder_path decoder_path variant
              (multi_process_service args) with
      | Raise e => (out0, Fatal e)
      | Ok whisper_hailo =>
        let out1 := out0 ++ [lit "Hailo Whisper pipeline initialized."] in
        let out2 :=
          if args_timing args
          then out1 ++ [lit "Timing analysis enabled. Performance metrics will be displayed."]
          else out1 in
        if real_time args then
          (out2, RealTime whisper_hailo
                   {| is_nhwc := true;
                      chunk_length := real_time_chunk_length args;
                      fast_mode := args_fast_mode args;
                      stream_output := args_stream_output args;
                      timing := args_timing args |})
        else
          (out2, Batch whisper_hailo
                   (if pystr_in (lit "tiny") (variant_str variant) then 10 else 5))
      end
    end
  end.

(** The whole real-time program along a schedule: [None] when start-up is
    fatal or the batch mode is selected. *)
Definition program (args : Args) (schedule : list step) : option session :=
  match snd (main args) with
  | RealTime whisper_hailo cfg => Some (real_time_stt cfg whisper_hailo schedule)
  | _ => None
  end.

End Main.

(** *** The trimmer, from its contract *)

(** Modelled from the spec: [improve_input_audio] of common/preprocessing.py,
    whose code is not available. The spec gives the trimmer as
    [trim(audio, enableVad, applyGain) -> (trimmedAudio, onsetSecondsOrNone)],
    says that voice-activity detection is what yields the onset timestamp,
    and that with VAD disabled the onset is always none. [gain_stage] and
    [detect_first_speech] stand for the two stages, left arbitrary. *)
Definition spec_improve_input_audio
    (gain_stage : list sample -> bool -> result (list sample))
    (detect_first_speech : list sample -> result (option Q))
    (audio : list sample) (vad low_audio_gain : bool)
  : result (list sample * option Q) :=
  match gain_stage audio low_audio_gain with
  | Raise e => Raise e
  | Ok trimmed =>
      if vad then
        match detect_first_speech trimmed with
        | Raise e => Raise e
        | Ok onset => Ok (trimmed, onset)
        end
      else Ok (trimmed, None)
  end.

(** The collaborators of [C] with the trimmer replaced by the contract. *)
Definition with_spec_trimmer (C : Collaborators)
    (gain_stage : list sample -> bool -> result (list sample))
    (detect_first_speech : list sample -> result (option Q)) : Collaborators :=
  {| mel := @mel C;
     backend := @backend C;
     SAMPLE_RATE := @SAMPLE_RATE C;
     improve_input_audio := spec_improve_input_audio gain_stage detect_first_speech;
     preprocess := @preprocess C;
     send_data := @send_data C;
     get_transcription := @get_transcription C;
     clean_transcription := @clean_transcription C;
     astype_float32 := @astype_float32 C;
     mel_astype_float32 := @mel_astype_float32 C |}.

(** *** A simulated pipeline, for concrete runs *)

(** Frames are numbered; the pipeline counts the frames it accepted, answers
    every poll with [answer], and refuses frame [bad]. The extractor cuts
    every chunk into frames [0] and [1]. *)
Definition simulated (rate : Z) (answer : pystr) (bad : nat) : Collaborators :=
  {| mel := nat;
     backend := nat;
     SAMPLE_RATE := rate;
     improve_input_audio := fun a vad _ => Ok (a, if vad then Some 1 else None);
     preprocess := fun _ _ _ _ => Ok [0%nat; 1%nat];
     send_data := fun m n =>
       if Nat.eqb m bad then (Raise (lit "device busy"), n) else (Ok tt, S n);
     get_transcription := fun n => (Ok answer, n);
     clean_transcription := fun s => Ok s;
     astype_float32 := fun a => a;
     mel_astype_float32 := fun m => m |}.

Definition simulated_platform (rate : Z) (answer : pystr) (bad : nat)
  : @Platform (simulated rate answer bad) :=
  {| HEF_REGISTRY := fun _ _ c =>
       Some (match c with encoder => lit "enc.hef" | decoder => lit "dec.hef" end);
     os_path_exists := fun _ => true;
     HailoWhisperPipeline := fun _ _ _ _ => (Ok 0%nat : result (@backend (simulated rate answer bad))) |}.

(** *** Observations on a run *)

Section Observations.
Context {C : Collaborators}.

(** The blocks the capture side appended, in order. *)
Fixpoint appended_blocks (schedule : list step) : list (list sample) :=
  match schedule with
  | [] => []
  | Capture indata _ :: rest => column0 indata :: appended_blocks rest
  | Work :: rest => appended_blocks rest
  end.

(** The samples one step appends. *)
Definition step_block (st : step) : list sample :=
  match st with
  | Capture indata _ => column0 indata
  | Work => []
  end.

(** The chunks the worker took out of the buffer, in order: each one is
    handed to the trimmer as the first act of its processing. *)
Fixpoint extracted_chunks (t : list event) : list (list sample) :=
  match t with
  | [] => []
  | EvTrim audio_chunk _ _ :: rest => audio_chunk :: extracted_chunks rest
  | _ :: rest => extracted_chunks rest
  end.

(** The frames submitted to the pipeline, in order. *)
Fixpoint submitted (t : list event) : list mel :=
  match t with
  | [] => []
  | EvSend m :: rest => m :: submitted rest
  | _ :: rest => submitted rest
  end.

(** What reaches standard output. *)
Fixpoint printed (t : list event) : list (pystr * pystr) :=
  match t with
  | [] => []
  | EvPrint text end_ :: rest => (text, end_) :: printed rest
  | _ :: rest => printed rest
  end.

Definition total_length (blocks : list (list sample)) : Z :=
  Z.of_nat (list_sum (map (@length sample) blocks)).

(** The two renderings of the unclear-audio marker. *)
Definition unclear_marker (stream : bool) : event :=
  if stream
  then EvPrint (lit "[Transcription] (unclear)") []
  else EvPrint (lit "[Transcription] (unclear audio)") newline.

(** Events of the output side only: prints and the pauses between
    streamed characters. *)
Definition is_output (e : event) : bool :=
  match e with
  | EvPrint _ _ | EvSleep _ => true
  | _ => false
  end.

(** Events that belong to the loop over the frames (everything but the
    calls of the trimmer and of the feature extractor). *)
Definition is_frame_event (e : event) : bool :=
  match e with
  | EvTrim _ _ _ | EvPreprocess _ _ _ _ => false
  | _ => true
  end.

(** The number of polls of the pipeline. *)
Fixpoint polls (t : list event) : nat :=
  match t with
  | [] => 0
  | EvPoll :: rest => S (polls rest)
  | _ :: rest => polls rest
  end.

(** The events of one frame that is processed to the end: one submit, the
    fixed delay, one poll, the sanitizer, then the output for it. *)
Definition frame_events (m : mel) (raw : pystr) (out : list event) : list event :=
  [EvSend (mel_astype_float32 m); EvSleep (5 # 100); EvPoll; EvClean raw] ++ out.

(** A fault-free pass over the frames of one chunk, frame after frame:
    the pipeline states it goes through and the events it leaves. *)
Inductive frames_run (cfg : Config) (improved_audio : list sample)
  : list mel -> backend -> backend -> list event -> Prop :=
| frames_done hw0 : frames_run cfg improved_audio [] hw0 hw0 []
| frames_next m rest hw0 hw1 hw2 hw3 raw transcription out t :
    send_data (mel_astype_float32 m) hw0 = (Ok tt, hw1) ->
    get_transcription hw1 = (Ok raw, hw2) ->
    clean_transcription raw = Ok transcription ->
    output_transcription cfg transcription improved_audio hw2 = (Ok tt, hw2, out) ->
    forallb is_output out = true ->
    frames_run cfg improved_audio rest hw2 hw3 t ->
    frames_run cfg improved_audio (m :: rest) hw0 hw3 (frame_events m raw out ++ t).

End Observations.

(** *** The batch mode of [main] (lines 272-313) *)

Definition DURATION : Z := 5.
Definition BLOCK_SIZE : Z := 2048.

(** What the batch loop needs besides the collaborators: [str.lower], the
    [stop] method of the pipeline, and the default of the [low_audio_gain]
    parameter of [improve_input_audio], which the batch call leaves out. *)
Class BatchEnv {C : Collaborators} := {
  lower : pystr -> pystr;
  stop : backend -> result unit * backend;
  low_audio_gain_default : bool
}.

(** One turn of the interactive loop as the outside world answers it: the
    line typed at the prompt, the outcome of [record_audio] and the outcome
    of [load_audio] on the file just recorded. *)
Record round := Round {
  user_input : pystr;
  recorded : result (list sample);
  loaded : result (list sample)
}.

(** How [main] ends: by returning, or with an exception nobody catches. *)
Inductive ending :=
| Returned
| Uncaught (e : exn).

Section Batch.
Context {C : Collaborators} {P : Platform} {B : BatchEnv}.

Local Notation "x <- m ;; k" := (bind m (fun x => k))
  (at level 61, m at next level, right associativity).
Local Notation "m ;; k" := (bind m (fun _ => k))
  (at level 61, right associativity).

Definition audio_path : pystr := lit "sampled_audio.wav".

Definition prompt : pystr :=
  newline ++ lit "Press Enter to start recording, or 'q' to quit: ".

(** The [TypeError] of [None - 0.2]. *)
Definition type_error : exn :=
  lit "unsupported operand type(s) for -: 'NoneType' and 'float'".

(** Lines 295-297: [start_time - 0.2] has no test for [None]; on [None] the
    subtraction raises [TypeError]. *)
Definition batch_chunk_offset (start_time : option Q) : result Q :=
  match start_time with
  | None => Raise type_error
  | Some t =>
      let chunk_offset := t - (2 # 10) in
      Ok (if Qlt_bool chunk_offset 0 then 0 else chunk_offset)
  end.

(** Lines 307-310: one turn of the batch [for mel in mel_spectrograms]. *)
Definition batch_frame (m : mel) : M unit :=
  log (EvSend m) ;;
  (fun hw => let (r, hw1) := send_data m hw in (r, hw1, [])) ;;
  time_sleep (1 # 10) ;;
  log EvPoll ;;
  raw_transcription <- (fun hw => let (r, hw1) := get_transcription hw in (r, hw1, [])) ;;
  log (EvClean raw_transcription) ;;
  transcription <- lift (clean_transcription raw_transcription) ;;
  print (newline ++ transcription) newline.

Fixpoint batch_for_mel (mel_spectrograms : list mel) : M unit :=
  match mel_spectrograms with
  | [] => ret tt
  | m :: rest => batch_frame m ;; batch_for_mel rest
  end.

(** Lines 292-310: load the file, trim, extract, transcribe. *)
Definition batch_pass (chunk_len : Q) (file : result (list sample)) : M unit :=
  sampled_audio <- lift file ;;
  log (EvTrim sampled_audio true low_audio_gain_default) ;;
  trimmed <- lift (improve_input_audio sampled_audio true low_audio_gain_default) ;;
  chunk_offset <- lift (batch_chunk_offset (snd trimmed)) ;;
  log (EvPreprocess (fst trimmed) true chunk_len chunk_offset) ;;
  mel_spectrograms <- lift (preprocess (fst trimmed) true chunk_len chunk_offset) ;;
  batch_for_mel mel_spectrograms.

(** The loop without [--reuse-audio]: prompt, quit on [q], else record and
    process, then prompt again. [input] raises [EOFError] when no line is
    left. *)
Fixpoint interactive_loop (chunk_len : Q) (rounds : list round) (hw0 : backend)
  : ending * backend * list event :=
  match rounds with
  | [] => (Uncaught (lit "EOF when reading a line"), hw0, [EvPrint prompt []])
  | r :: rest =>
      if pystr_eqb (lower (user_input r)) (lit "q") then
        (Returned, hw0, [EvPrint prompt []])
      else
        match recorded r with
        | Raise e => (Uncaught e, hw0, [EvPrint prompt []])
        | Ok _ =>
            match batch_pass chunk_len (loaded r) hw0 with
            | (Raise e, hw1, t) => (Uncaught e, hw1, EvPrint prompt [] :: t)
            | (Ok _, hw1, t) =>
                match interactive_loop chunk_len rest hw1 with
                | (x, hw2, t2) => (x, hw2, (EvPrint prompt [] :: t) ++ t2)
                end
            end
        end
  end.

(** The loop with [--reuse-audio]: one pass over the existing file, or the
    notice that there is none. *)
Definition reuse_loop (chunk_len : Q) (file : result (list sample)) (hw0 : backend)
  : ending * backend * list event :=
  if os_path_exists audio_path then
    match batch_pass chunk_len file hw0 with
    | (Raise e, hw1, t) => (Uncaught e, hw1, t)
    | (Ok _, hw1, t) => (Returned, hw1, t)
    end
  else
    (Returned, hw0,
     [EvPrint (lit "Audio file " ++ audio_path
               ++ lit " not found. Please record audio first.") newline]).

(** Line 315: [whisper_hailo.stop()] is reached only when the loop is left
    by [break]. The flag tells whether [stop] was called. *)
Definition stop_after (r : ending * backend * list event)
  : ending * backend * list event * bool :=
  match r with
  | (Returned, hw1, t) =>
      match stop hw1 with
      | (Ok _, hw2) => (Returned, hw2, t, true)
      | (Raise e, hw2) => (Uncaught e, hw2, t, true)
      end
  | (Uncaught e, hw1, t) => (Uncaught e, hw1, t, false)
  end.

(** [main] in batch mode, after a start-up that selected it; [file] is what
    [load_audio] gives for a file that exists already, [rounds] is what
    happens at the successive prompts. [None] when start-up is fatal or
    selects the real-time mode. *)
Definition main_batch (args : Args) (file : result (list sample)) (rounds : list round)
  : option (ending * backend * list event * bool) :=
  match snd (main args) with
  | Batch whisper_hailo chunk_len =>
      Some (stop_after
              (if reuse_audio args
               then reuse_loop chunk_len file whisper_hailo
               else interactive_loop chunk_len rounds whisper_hailo))
  | _ => None
  end.

End Batch.

(** *** More observations *)

Section MoreObservations.
Context {C : Collaborators}.

(** The characters written to standard output, in order. *)
Fixpoint rendered (t : list event) : pystr :=
  match t with
  | [] => []
  | EvPrint text end_ :: rest => text ++ end_ ++ rendered rest
  | _ :: rest => rendered rest
  end.

(** The pauses taken, in order. *)
Fixpoint pauses (t : list event) : list Q :=
  match t with
  | [] => []
  | EvSleep seconds :: rest => seconds :: pauses rest
  | _ :: rest => pauses rest
  end.

End MoreObservations.

(** A batch environment for concrete runs: ASCII lower-casing of a single
    letter [Q], a [stop] that marks the pipeline with 1000. *)
Definition simulated_batch (rate : Z) (answer : pystr) (bad : nat)
  : @BatchEnv (simulated rate answer bad) :=
  @Build_BatchEnv (simulated rate answer bad)
    (fun s => map (fun c => if (c =? 81)%N then 113%N else c) s)
    (fun n : nat => (Ok tt, (n + 1000)%nat))
    true.

(** A platform on which every HEF is registered and start-up yields the
    pipeline state [hw0]; [on_disk] says which files exist. *)
Definition platform_with (C : Collaborators) (on_disk : pystr -> bool) (hw0 : @backend C)
  : @Platform C :=
  @Build_Platform C
    (fun _ _ c => Some (match c with encoder => lit "enc.hef" | decoder => lit "dec.hef" end))
    on_disk
    (fun _ _ _ _ => Ok hw0).

(** A batch environment with the identity for [lower] and a [stop] that
    leaves the pipeline as it is. *)
Definition plain_batch (C : Collaborators) : @BatchEnv C :=
  @Build_BatchEnv C (fun s => s) (fun hw0 => (Ok tt, hw0)) true.

(** The simulated collaborators with a trimmer that never finds speech. *)
Definition silent (rate : Z) (answer : pystr) (bad : nat) : Collaborators :=
  with_spec_trimmer (simulated rate answer bad) (fun a _ => Ok a) (fun _ => Ok None).

End app_hailo_whisper.

Import app_hailo_whisper.

(** * Properties *)

(** ** The shared buffer *)

Lemma try_extract_ready (n : Z) (buf : list sample) :
  (0 < n <= Z.of_nat (length buf))%Z ->
  try_extract n buf = (Some (firstn (Z.to_nat n) buf), skipn (Z.to_nat n) buf).
Proof.
  intros [Hpos Hle]. unfold try_extract.
  apply Z.leb_le in Hle. apply Z.ltb_lt in Hpos.
  now rewrite Hle, Hpos.
Qed.

Lemma try_extract_not_ready (n : Z) (buf : list sample) :
  (n <= 0 \/ Z.of_nat (length buf) < n)%Z ->
  try_extract n buf = (None, buf).
Proof.
  intros H. unfold try_extract.
  destruct (n <=? Z.of_nat (length buf))%Z eqn:Hle; [|reflexivity].
  destruct (0 <? n)%Z eqn:Hpos; [|reflexivity].
  apply Z.leb_le in Hle. apply Z.ltb_lt in Hpos. lia.
Qed.

Lemma firstn_length_Z (n : Z) (buf : list sample) :
  (0 < n <= Z.of_nat (length buf))%Z ->
  Z.of_nat (length (firstn (Z.to_nat n) buf)) = n.
Proof.
  intros H. rewrite length_firstn. lia.
Qed.

Lemma ready_or_not (n : Z) (buf : list sample) :
  (0 < n <= Z.of_nat (length buf))%Z \/ (n <= 0 \/ Z.of_nat (length buf) < n)%Z.
Proof. lia. Qed.

(** C1 (as amended). For every buffer and every requested count [n], the
    extraction step has exactly two outcomes. When [0 < n] and the buffer
    holds at least [n] samples it returns the first [n] samples and leaves
    the rest: the chunk has length [n], the buffer is shorter by [n], and
    chunk followed by the new buffer is the old buffer. Otherwise (fewer
    than [n] samples held, or [n <= 0]) it returns not-ready and the buffer
    is unchanged. *)
Theorem C1_try_extract_all_or_nothing (n : Z) (buf : list sample) :
  ((0 < n <= Z.of_nat (length buf))%Z /\
   exists chunk rest,
     try_extract n buf = (Some chunk, rest) /\
     chunk = firstn (Z.to_nat n) buf /\
     Z.of_nat (length chunk) = n /\
     Z.of_nat (length rest) = (Z.of_nat (length buf) - n)%Z /\
     chunk ++ rest = buf)
  \/
  ((n <= 0 \/ Z.of_nat (length buf) < n)%Z /\ try_extract n buf = (None, buf)).
Proof.
  destruct (Z_lt_le_dec 0 n) as [Hpos|Hnonpos];
    [destruct (Z_le_gt_dec n (Z.of_nat (length buf))) as [Hle|Hgt]|].
  - left. split; [lia|].
    exists (firstn (Z.to_nat n) buf), (skipn (Z.to_nat n) buf).
    repeat split.
    + apply try_extract_ready; lia.
    + apply firstn_length_Z; lia.
    + rewrite length_skipn. lia.
    + apply firstn_skipn.
  - right. split; [lia|]. apply try_extract_not_ready; lia.
  - right. split; [lia|]. apply try_extract_not_ready; lia.
Qed.

(** C1, as the specification words it, fails where the requested count is
    not positive: with a chunk length of -1 s at 16 kHz the count is -16000, a
    buffer of three samples does not hold fewer than that, and yet the step
    returns not-ready instead of a chunk. *)
Lemma C1_counterexample :
  let cfg := {| is_nhwc := true; chunk_length := -1; fast_mode := false;
                stream_output := false; timing := false |} in
  let n := @required_samples (simulated 16000 [] 7) cfg in
  let buf : list sample := [1; 2; 3] in
  n = (-16000)%Z /\
  try_extract n buf = (None, buf) /\
  ~ ((exists chunk rest,
        try_extract n buf = (Some chunk, rest) /\
        chunk = firstn (Z.to_nat n) buf /\
        Z.of_nat (length chunk) = n /\
        Z.of_nat (length rest) = (Z.of_nat (length buf) - n)%Z)
     \/ ((Z.of_nat (length buf) < n)%Z /\ try_extract n buf = (None, buf))).
Proof.
  cbv zeta. split; [reflexivity|]. split; [reflexivity|].
  intros [(chunk & rest & H & _)|[H _]].
  - vm_compute in H. discriminate H.
  - vm_compute in H. discriminate H.
Qed.

(** The scenario of the specification: 16 kHz and 5 s chunks need 80000
    samples; 40000 held are not enough and stay where they are; with 40000
    more the chunk is the whole buffer. *)
Example scenario_80000 :
  let cfg := {| is_nhwc := true; chunk_length := 5; fast_mode := false;
                stream_output := false; timing := false |} in
  let n := @required_samples (simulated 16000 [] 7) cfg in
  let half : list sample := repeat 0 (Z.to_nat 40000) in
  n = 80000%Z
  /\ try_extract n half = (None, half)
  /\ try_extract n (half ++ half) = (Some (half ++ half), []).
Proof.
  intros cfg n half.
  assert (Hn : n = 80000%Z) by reflexivity.
  assert (Hhalf : Z.of_nat (length half) = 40000%Z).
  { unfold half. rewrite repeat_length. lia. }
  split; [exact Hn|]. rewrite Hn. split.
  - apply try_extract_not_ready. lia.
  - rewrite try_extract_ready by (rewrite length_app; lia).
    rewrite firstn_all2, skipn_all2 by (rewrite length_app; lia).
    reflexivity.
Qed.

(** ** The chunk offset *)

Lemma Qlt_bool_iff (x y : Q) : Qlt_bool x y = true <-> x < y.
Proof. unfold Qlt_bool, Qlt. apply Z.ltb_lt. Qed.

Lemma Qlt_bool_false_iff (x y : Q) : Qlt_bool x y = false <-> y <= x.
Proof.
  unfold Qlt_bool, Qle. rewrite Z.ltb_ge. reflexivity.
Qed.

Lemma chunk_offset_of_known (t : Q) :
  chunk_offset_of (Some t) == Qmax 0 (t - (2 # 10)).
Proof.
  unfold chunk_offset_of. cbv zeta.
  destruct (Qlt_bool (t - (2 # 10)) 0) eqn:H.
  - apply Qlt_bool_iff in H. symmetry. apply Q.max_l. apply Qlt_le_weak, H.
  - apply Qlt_bool_false_iff in H. symmetry. apply Q.max_r. exact H.
Qed.

Lemma chunk_offset_of_nonneg (onset : option Q) : 0 <= chunk_offset_of onset.
Proof.
  destruct onset as [t|]; [|apply Qle_refl].
  unfold chunk_offset_of. cbv zeta.
  destruct (Qlt_bool (t - (2 # 10)) 0) eqn:H.
  - apply Qle_refl.
  - apply Qlt_bool_false_iff in H. exact H.
Qed.

(** C3. The offset the worker computes from the onset returned by the
    trimmer is [max(0, onset - 0.2)] for a known onset and [0] for a missing
    one; it is never negative, whatever the onset (negative ones included);
    onset 0.1 gives 0 and onset 1.0 gives 0.8. *)
Theorem C3_chunk_offset (onset : option Q) :
  match onset with
  | Some t => chunk_offset_of onset == Qmax 0 (t - (2 # 10))
  | None => chunk_offset_of onset = 0
  end
  /\ 0 <= chunk_offset_of onset
  /\ chunk_offset_of (Some (1 # 10)) == 0
  /\ chunk_offset_of (Some 1) == (8 # 10).
Proof.
  split; [|split; [|split]].
  - destruct onset as [t|]; [apply chunk_offset_of_known | reflexivity].
  - apply chunk_offset_of_nonneg.
  - reflexivity.
  - reflexivity.
Qed.

(** ** Traces of the chunk processing *)

Ltac run_m :=
  cbv beta iota delta [bind try_except log lift print time_sleep ret].

Section Traces.
Context {C : Collaborators}.
Variable cfg : Config.

Lemma extracted_chunks_app (t1 t2 : list event) :
  extracted_chunks (t1 ++ t2) = extracted_chunks t1 ++ extracted_chunks t2.
Proof.
  induction t1 as [|e t1 IH]; [reflexivity|].
  destruct e; cbn; rewrite IH; reflexivity.
Qed.

Lemma submitted_app (t1 t2 : list event) :
  submitted (t1 ++ t2) = submitted t1 ++ submitted t2.
Proof.
  induction t1 as [|e t1 IH]; [reflexivity|].
  destruct e; cbn; rewrite IH; reflexivity.
Qed.

Lemma printed_app (t1 t2 : list event) :
  printed (t1 ++ t2) = printed t1 ++ printed t2.
Proof.
  induction t1 as [|e t1 IH]; [reflexivity|].
  destruct e; cbn; rewrite IH; reflexivity.
Qed.

Lemma polls_app (t1 t2 : list event) :
  polls (t1 ++ t2) = (polls t1 + polls t2)%nat.
Proof.
  induction t1 as [|e t1 IH]; [reflexivity|].
  destruct e; cbn; rewrite IH; reflexivity.
Qed.

Lemma output_is_frame_event (t : list event) :
  forallb is_output t = true -> forallb is_frame_event t = true.
Proof.
  induction t as [|e t IH]; [reflexivity|].
  cbn. intros H. apply andb_true_iff in H as [He Ht].
  rewrite (IH Ht). destruct e; try discriminate He; reflexivity.
Qed.

Lemma frame_events_no_chunk (t : list event) :
  forallb is_frame_event t = true -> extracted_chunks t = [].
Proof.
  induction t as [|e t IH]; [reflexivity|].
  cbn. intros H. apply andb_true_iff in H as [He Ht].
  destruct e; try discriminate He; cbn; auto.
Qed.

Lemma output_no_submit (t : list event) :
  forallb is_output t = true -> submitted t = [] /\ polls t = 0%nat.
Proof.
  induction t as [|e t IH]; [split; reflexivity|].
  cbn. intros H. apply andb_true_iff in H as [He Ht].
  destruct e; try discriminate He; cbn; auto.
Qed.

(** Streaming prints every character, each followed by its pause. *)
Lemma stream_chars_run (s : pystr) (hw0 : backend) :
  stream_chars s hw0 =
  (Ok tt, hw0, flat_map (fun c => [EvPrint [c] []; EvSleep (1 # 100)]) s).
Proof.
  induction s as [|c s IH]; [reflexivity|].
  cbn [stream_chars flat_map]. run_m. rewrite IH. reflexivity.
Qed.

(** The output step never touches the pipeline and leaves output events
    only. *)
Lemma output_transcription_shape (t : pystr) (a : list sample) (hw0 : backend) :
  exists r out,
    output_transcription cfg t a hw0 = (r, hw0, out) /\
    forallb is_output out = true.
Proof.
  unfold output_transcription.
  destruct (meaningful t).
  - destruct (stream_output cfg).
    + run_m. rewrite stream_chars_run. eexists _, _. split; [reflexivity|].
      cbn. rewrite forallb_app. cbn. rewrite andb_true_r.
      induction t as [|c t IH]; [reflexivity|exact IH].
    + run_m. eexists _, _. split; reflexivity.
  - destruct (pystr_eqb (strip t) (lit ".")).
    + run_m. eexists _, _. split; reflexivity.
    + run_m. destruct (np_max_abs a) as [peak|e].
      * destruct (Qlt_bool (5 # 100) peak).
        -- destruct (stream_output cfg); eexists _, _; split; reflexivity.
        -- eexists _, _. split; reflexivity.
      * eexists _, _. split; reflexivity.
Qed.

(** One frame, case by case along its four calls. *)
Lemma process_frame_run (a : list sample) (m : mel) (hw0 : backend) :
  match send_data (mel_astype_float32 m) hw0 with
  | (Raise e, hw1) =>
      process_frame cfg a m hw0 = (Raise e, hw1, [EvSend (mel_astype_float32 m)])
  | (Ok _, hw1) =>
      match get_transcription hw1 with
      | (Raise e, hw2) =>
          process_frame cfg a m hw0 =
          (Raise e, hw2, [EvSend (mel_astype_float32 m); EvSleep (5 # 100); EvPoll])
      | (Ok raw, hw2) =>
          match clean_transcription raw with
          | Raise e =>
              process_frame cfg a m hw0 =
              (Raise e, hw2, frame_events m raw [])
          | Ok t =>
              match output_transcription cfg t a hw2 with
              | (r, hw3, out) =>
                  process_frame cfg a m hw0 = (r, hw3, frame_events m raw out)
              end
          end
      end
  end.
Proof.
  unfold process_frame, frame_events. run_m.
  destruct (send_data (mel_astype_float32 m) hw0) as [[u|e] hw1]; [|reflexivity].
  destruct (get_transcription hw1) as [[raw|e] hw2]; [|reflexivity].
  destruct (clean_transcription raw) as [t|e]; [|reflexivity].
  destruct (output_transcription cfg t a hw2) as [[r hw3] out].
  reflexivity.
Qed.

(** Whatever happens in a frame, its events start with its submit, belong
    to the loop, and hold at most one poll. *)
Lemma process_frame_events (a : list sample) (m : mel) (hw0 : backend) :
  exists r hw1 t,
    process_frame cfg a m hw0 = (r, hw1, EvSend (mel_astype_float32 m) :: t) /\
    forallb is_frame_event t = true /\
    submitted t = [] /\
    (polls t <= 1)%nat.
Proof.
  pose proof (process_frame_run a m hw0) as H.
  destruct (send_data (mel_astype_float32 m) hw0) as [[u|e] hw1].
  2:{ eexists _, _, _. split; [exact H|]. repeat split; cbn; lia. }
  destruct (get_transcription hw1) as [[raw|e] hw2].
  2:{ eexists _, _, _. split; [exact H|]. repeat split; cbn; lia. }
  destruct (clean_transcription raw) as [t|e].
  2:{ eexists _, _, _. split; [exact H|]. repeat split; cbn; lia. }
  destruct (output_transcription_shape t a hw2) as (r & out & Hout & Hq).
  rewrite Hout in H.
  eexists _, _, _. split; [exact H|].
  destruct (output_no_submit _ Hq) as [Hs Hp].
  cbn. rewrite (output_is_frame_event _ Hq), Hs, Hp. repeat split; lia.
Qed.

(** A pass over the frames that ends without a fault went frame by frame. *)
Lemma for_mel_ok (a : list sample) (ms : list mel) :
  forall (hw0 hw1 : backend) (u : unit) (t : list event),
    for_mel cfg a ms hw0 = (Ok u, hw1, t) -> frames_run cfg a ms hw0 hw1 t.
Proof.
  induction ms as [|m ms IH]; intros hw0 hw1 u t H.
  - cbn in H. unfold ret in H. inversion H; subst. constructor.
  - cbn [for_mel] in H. unfold bind in H.
    pose proof (process_frame_run a m hw0) as Hf.
    destruct (send_data (mel_astype_float32 m) hw0) as [[[]|e] hwa] eqn:Hs;
      [|rewrite Hf in H; discriminate H].
    destruct (get_transcription hwa) as [[raw|e] hwb] eqn:Hg;
      [|rewrite Hf in H; discriminate H].
    destruct (clean_transcription raw) as [tr|e] eqn:Hc;
      [|rewrite Hf in H; discriminate H].
    destruct (output_transcription_shape tr a hwb) as (r & out & Hout & Hq).
    rewrite Hout in Hf. rewrite Hf in H.
    destruct r as [[]|e]; [|discriminate H].
    destruct (for_mel cfg a ms hwb) as [[r2 hwc] t2] eqn:Hrest.
    inversion H; subst.
    eapply frames_next; eauto.
Qed.

(** And conversely: the relation describes runs of the loop. *)
Lemma frames_run_for_mel (a : list sample) (ms : list mel)
      (hw0 hw1 : backend) (t : list event) :
  frames_run cfg a ms hw0 hw1 t -> for_mel cfg a ms hw0 = (Ok tt, hw1, t).
Proof.
  induction 1 as [hw0|m rest hw0 hwa hwb hwc raw tr out t Hs Hg Hc Hout Hq Hrun IH].
  - reflexivity.
  - cbn [for_mel]. unfold bind.
    pose proof (process_frame_run a m hw0) as Hf.
    rewrite Hs, Hg, Hc, Hout in Hf. rewrite Hf, IH. reflexivity.
Qed.

Lemma frames_run_submitted (a : list sample) (ms : list mel)
      (hw0 hw1 : backend) (t : list event) :
  frames_run cfg a ms hw0 hw1 t ->
  submitted t = map mel_astype_float32 ms /\ polls t = length ms.
Proof.
  induction 1 as [hw0|m rest hw0 hwa hwb hwc raw tr out t Hs Hg Hc Hout Hq Hrun [IHs IHp]].
  - split; reflexivity.
  - destruct (output_no_submit _ Hq) as [Hos Hop].
    unfold frame_events. cbn.
    rewrite submitted_app, polls_app, Hos, Hop, IHs, IHp. split; reflexivity.
Qed.

(** In every case the frames submitted are an initial segment of the
    frames of the chunk, in their order, each polled at most once. *)
Lemma for_mel_events (a : list sample) (ms : list mel) :
  forall hw0 : backend,
  exists r hw1 t done rest,
    for_mel cfg a ms hw0 = (r, hw1, t) /\
    ms = done ++ rest /\
    submitted t = map mel_astype_float32 done /\
    forallb is_frame_event t = true /\
    (polls t <= length done)%nat /\
    (forall u, r = Ok u -> rest = []).
Proof.
  induction ms as [|m ms IH]; intros hw0.
  - exists (Ok tt), hw0, [], [], []. repeat split; auto.
  - cbn [for_mel]. unfold bind.
    destruct (process_frame_events a m hw0) as (r & hwa & t & Hf & Hfe & Hsub & Hp).
    rewrite Hf. destruct r as [u|e].
    + destruct (IH hwa) as (r2 & hwb & t2 & done & rest & Hrun & Hms & Hs2 & Hfe2 & Hp2 & Hok).
      rewrite Hrun.
      exists r2, hwb, ((EvSend (mel_astype_float32 m) :: t) ++ t2), (m :: done), rest.
      split; [reflexivity|]. split; [cbn; congruence|].
      split; [cbn; rewrite submitted_app, Hsub, Hs2; reflexivity|].
      split; [cbn; rewrite forallb_app, Hfe, Hfe2; reflexivity|].
      split; [cbn; rewrite polls_app; cbn; lia|exact Hok].
    + exists (Raise e), hwa, (EvSend (mel_astype_float32 m) :: t), [m], ms.
      split; [reflexivity|]. split; [reflexivity|].
      split; [cbn; rewrite Hsub; reflexivity|].
      split; [exact Hfe|]. split; [cbn; lia|]. intros u Hu. discriminate Hu.
Qed.

(** The body of the [try], case by case along its calls. *)
Lemma try_body_run (chunk : list sample) (hw0 : backend) :
  let use_vad := negb (fast_mode cfg) in
  match improve_input_audio chunk use_vad true with
  | Raise e => try_body cfg chunk hw0 = (Raise e, hw0, [EvTrim chunk use_vad true])
  | Ok (a, onset) =>
      let pre := EvPreprocess (astype_float32 a) (is_nhwc cfg) (chunk_length cfg)
                              (chunk_offset_of onset) in
      match preprocess (astype_float32 a) (is_nhwc cfg) (chunk_length cfg)
                       (chunk_offset_of onset) with
      | Raise e => try_body cfg chunk hw0 = (Raise e, hw0, [EvTrim chunk use_vad true; pre])
      | Ok ms =>
          match for_mel cfg a ms hw0 with
          | (r, hw1, t) =>
              try_body cfg chunk hw0 = (r, hw1, EvTrim chunk use_vad true :: pre :: t)
          end
      end
  end.
Proof.
  cbv zeta. unfold try_body. run_m.
  destruct (improve_input_audio chunk (negb (fast_mode cfg)) true) as [[a onset]|e];
    [|reflexivity].
  cbn [fst snd].
  destruct (preprocess (astype_float32 a) (is_nhwc cfg) (chunk_length cfg)
              (chunk_offset_of onset)) as [ms|e]; [|reflexivity].
  destruct (for_mel cfg a ms hw0) as [[r hw1] t]. reflexivity.
Qed.

(** The body's events: the call of the trimmer with the chunk, then
    nothing that carries another chunk. *)
Lemma try_body_events (chunk : list sample) (hw0 : backend) :
  exists r hw1 t,
    try_body cfg chunk hw0 = (r, hw1, EvTrim chunk (negb (fast_mode cfg)) true :: t) /\
    extracted_chunks t = [].
Proof.
  pose proof (try_body_run chunk hw0) as H. cbv zeta in H.
  destruct (improve_input_audio chunk (negb (fast_mode cfg)) true) as [[a onset]|e].
  2:{ eexists _, _, _. split; [exact H|reflexivity]. }
  destruct (preprocess (astype_float32 a) (is_nhwc cfg) (chunk_length cfg)
              (chunk_offset_of onset)) as [ms|e].
  2:{ eexists _, _, _. split; [exact H|reflexivity]. }
  destruct (for_mel_events a ms hw0) as (r & hw1 & t & done & rest & Hrun & _ & _ & Hfe & _).
  rewrite Hrun in H. eexists _, _, _. split; [exact H|].
  cbn. apply frame_events_no_chunk, Hfe.
Qed.

(** The handler swallows the fault: a chunk always ends normally, with the
    body's events followed, after a fault, by the one logged line. *)
Lemma process_chunk_run (chunk : list sample) (hw0 : backend) :
  match try_body cfg chunk hw0 with
  | (Ok u, hw1, t) => process_chunk cfg chunk hw0 = (Ok u, hw1, t)
  | (Raise e, hw1, t) =>
      process_chunk cfg chunk hw0 =
      (Ok tt, hw1, t ++ [EvPrint (lit "Error: " ++ e) newline])
  end.
Proof.
  unfold process_chunk, try_except.
  destruct (try_body cfg chunk hw0) as [[[u|e] hw1] t]; reflexivity.
Qed.

Lemma process_chunk_events (chunk : list sample) (hw0 : backend) :
  exists hw1 t,
    process_chunk cfg chunk hw0 = (Ok tt, hw1, t) /\
    extracted_chunks t = [chunk].
Proof.
  pose proof (process_chunk_run chunk hw0) as H.
  destruct (try_body_events chunk hw0) as (r & hw1 & t & Hb & Hx).
  rewrite Hb in H. destruct r as [[]|e].
  - eexists _, _. split; [exact H|]. cbn. now rewrite Hx.
  - eexists _, _. split; [exact H|]. cbn.
    rewrite extracted_chunks_app, Hx. reflexivity.
Qed.

(** *** One worker iteration *)

Lemma transcription_worker_idle (s : session) :
  try_extract (required_samples cfg) (audio_buffer s) = (None, audio_buffer s) ->
  transcription_worker cfg s =
  Session (audio_buffer s) (hw s) (chunks_processed s) (trace s ++ [EvSleep (1 # 100)]).
Proof.
  intros H. unfold transcription_worker. rewrite H. reflexivity.
Qed.

Lemma transcription_worker_chunk (s : session) :
  let n := required_samples cfg in
  (0 < n <= Z.of_nat (length (audio_buffer s)))%Z ->
  let chunk := firstn (Z.to_nat n) (audio_buffer s) in
  exists hw1 t,
    process_chunk cfg chunk (hw s) = (Ok tt, hw1, t) /\
    extracted_chunks t = [chunk] /\
    transcription_worker cfg s =
    Session (skipn (Z.to_nat n) (audio_buffer s)) hw1 (S (chunks_processed s))
            (trace s ++ t ++ [EvSleep (1 # 100)]).
Proof.
  intros n Hn chunk. subst n chunk.
  set (chunk := firstn (Z.to_nat (required_samples cfg)) (audio_buffer s)).
  destruct (process_chunk_events chunk (hw s)) as (hw1 & t & Hp & Hx).
  exists hw1, t. split; [exact Hp|]. split; [exact Hx|].
  unfold transcription_worker.
  rewrite (try_extract_ready _ Hn). fold chunk.
  assert (Hlen : (0 <? length chunk)%nat = true).
  { apply Nat.ltb_lt. pose proof (firstn_length_Z _ Hn) as Hl.
    fold chunk in Hl. lia. }
  rewrite Hlen, Hp. cbn. rewrite <- app_assoc. reflexivity.
Qed.

End Traces.

(** ** Sessions: the buffer along a schedule *)

Section Sessions.
Context {C : Collaborators}.
Variable cfg : Config.

(** One step keeps every sample: what was taken out so far, followed by
    what the buffer holds, grows by exactly the block appended. *)
Lemma run_step_conserves (s : session) (st : step) :
  let s' := run_step cfg s st in
  concat (extracted_chunks (trace s')) ++ audio_buffer s' =
  (concat (extracted_chunks (trace s)) ++ audio_buffer s) ++ step_block st.
Proof.
  destruct st as [indata status|]; cbn [run_step step_block].
  - unfold audio_callback, append. cbn [trace audio_buffer].
    rewrite extracted_chunks_app.
    destruct status; cbn [extracted_chunks]; rewrite app_nil_r, app_assoc; reflexivity.
  - rewrite app_nil_r.
    destruct (ready_or_not (required_samples cfg) (audio_buffer s)) as [Hn|Hn].
    + destruct (transcription_worker_chunk cfg s Hn) as (hw1 & t & _ & Hx & Hw).
      rewrite Hw. cbn [trace audio_buffer].
      rewrite !extracted_chunks_app, Hx. cbn [extracted_chunks].
      rewrite app_nil_r, concat_app. cbn [concat]. rewrite app_nil_r, <- app_assoc.
      now rewrite firstn_skipn.
    + rewrite (transcription_worker_idle cfg s (try_extract_not_ready _ Hn)).
      cbn [trace audio_buffer]. rewrite extracted_chunks_app. cbn [extracted_chunks].
      now rewrite app_nil_r.
Qed.

(** One step takes out chunks of the required length only. *)
Lemma run_step_chunk_lengths (s : session) (st : step) :
  let has_len := fun c : list sample => Z.of_nat (length c) = required_samples cfg in
  Forall has_len (extracted_chunks (trace s)) ->
  Forall has_len (extracted_chunks (trace (run_step cfg s st))).
Proof.
  intros has_len H. destruct st as [indata status|]; cbn [run_step].
  - unfold audio_callback. cbn [trace]. rewrite extracted_chunks_app.
    destruct status; cbn [extracted_chunks]; rewrite app_nil_r; exact H.
  - destruct (ready_or_not (required_samples cfg) (audio_buffer s)) as [Hn|Hn].
    + destruct (transcription_worker_chunk cfg s Hn) as (hw1 & t & _ & Hx & Hw).
      rewrite Hw. cbn [trace].
      rewrite !extracted_chunks_app, Hx. cbn [extracted_chunks]. rewrite app_nil_r.
      apply Forall_app. split; [exact H|].
      constructor; [|constructor]. apply firstn_length_Z, Hn.
    + rewrite (transcription_worker_idle cfg s (try_extract_not_ready _ Hn)).
      cbn [trace]. rewrite extracted_chunks_app. cbn [extracted_chunks].
      now rewrite app_nil_r.
Qed.

Lemma appended_blocks_cons (st : step) (schedule : list step) :
  concat (appended_blocks (st :: schedule)) =
  step_block st ++ concat (appended_blocks schedule).
Proof. destruct st; reflexivity. Qed.

Lemma run_conserves (schedule : list step) :
  forall s : session,
    let s' := fold_left (run_step cfg) schedule s in
    concat (extracted_chunks (trace s')) ++ audio_buffer s' =
    (concat (extracted_chunks (trace s)) ++ audio_buffer s)
    ++ concat (appended_blocks schedule).
Proof.
  induction schedule as [|st schedule IH]; intros s.
  - cbn. now rewrite app_nil_r.
  - cbn [fold_left]. cbv zeta. cbv zeta in IH. rewrite IH.
    pose proof (run_step_conserves s st) as Hs. cbv zeta in Hs. rewrite Hs.
    rewrite appended_blocks_cons, <- app_assoc. reflexivity.
Qed.

Lemma run_chunk_lengths (schedule : list step) :
  forall s : session,
    let has_len := fun c : list sample => Z.of_nat (length c) = required_samples cfg in
    Forall has_len (extracted_chunks (trace s)) ->
    Forall has_len (extracted_chunks (trace (fold_left (run_step cfg) schedule s))).
Proof.
  induction schedule as [|st schedule IH]; intros s has_len H.
  - exact H.
  - cbn [fold_left]. apply IH. apply run_step_chunk_lengths, H.
Qed.

Lemma session_conserves (whisper_hailo : backend) (schedule : list step) :
  let s := real_time_stt cfg whisper_hailo schedule in
  concat (appended_blocks schedule) =
  concat (extracted_chunks (trace s)) ++ audio_buffer s.
Proof.
  cbv zeta. unfold real_time_stt.
  pose proof (run_conserves schedule (session_start whisper_hailo)) as H.
  cbv zeta in H. rewrite H. reflexivity.
Qed.

Lemma total_length_concat (blocks : list (list sample)) :
  total_length blocks = Z.of_nat (length (concat blocks)).
Proof. unfold total_length. now rewrite length_concat. Qed.

End Sessions.

(** C2. Along every finite interleaving of capture callbacks (appends) and
    worker iterations (extractions), started on the empty buffer, the length
    of the buffer is the total length appended minus the total length of the
    chunks taken out, and the appended samples, in order, are exactly the
    chunks taken out, in order, followed by the buffer: the chunks form an
    initial segment of the stream, nothing is read twice, nothing is
    skipped. *)
Theorem C2_buffer_conservation {C : Collaborators} (cfg : Config)
        (whisper_hailo : backend) (schedule : list step) :
  let s := real_time_stt cfg whisper_hailo schedule in
  Z.of_nat (length (audio_buffer s)) =
    (total_length (appended_blocks schedule)
     - total_length (extracted_chunks (trace s)))%Z
  /\ concat (appended_blocks schedule) =
     concat (extracted_chunks (trace s)) ++ audio_buffer s.
Proof.
  cbv zeta. pose proof (session_conserves cfg whisper_hailo schedule) as H.
  cbv zeta in H. split; [|exact H].
  rewrite !total_length_concat, H, length_app. lia.
Qed.

(** ** The output policy *)

Lemma pystr_eqb_eq (a b : pystr) : pystr_eqb a b = true <-> a = b.
Proof.
  revert b. induction a as [|x a IH]; intros [|y b]; cbn; try (split; congruence).
  rewrite andb_true_iff, N.eqb_eq, IH. split.
  - intros [-> ->]. reflexivity.
  - intros H. inversion H. auto.
Qed.

Lemma truthy_iff (s : pystr) : truthy s = true <-> s <> [].
Proof. destruct s; cbn; split; congruence. Qed.

Lemma meaningful_iff (t : pystr) :
  meaningful t = true <-> strip t <> [] /\ strip t <> lit ".".
Proof.
  unfold meaningful. rewrite andb_true_iff, negb_true_iff, truthy_iff.
  rewrite <- not_true_iff_false, pystr_eqb_eq. reflexivity.
Qed.

Section Output.
Context {C : Collaborators}.
Variable cfg : Config.

(** A transcription that strips to a period prints nothing, whatever the
    audio. *)
Lemma output_period (t : pystr) (a : list sample) (hw0 : backend) :
  strip t = lit "." -> output_transcription cfg t a hw0 = (Ok tt, hw0, []).
Proof.
  intros H. unfold output_transcription, meaningful. rewrite H. reflexivity.
Qed.

(** A transcription that strips to nothing is decided by the peak. *)
Lemma output_empty (t : pystr) (a : list sample) (peak : Q) (hw0 : backend) :
  strip t = [] -> np_max_abs a = Ok peak ->
  output_transcription cfg t a hw0 =
  (Ok tt, hw0,
   if Qlt_bool (5 # 100) peak then [unclear_marker (stream_output cfg)] else []).
Proof.
  intros H Hp. unfold output_transcription, meaningful. rewrite H. cbn.
  run_m. rewrite Hp.
  destruct (Qlt_bool (5 # 100) peak); [|reflexivity].
  unfold unclear_marker. destruct (stream_output cfg); reflexivity.
Qed.

Lemma process_frame_complete (a : list sample) (m : mel) (hw0 hw1 hw2 : backend)
      (raw t : pystr) (out : list event) :
  send_data (mel_astype_float32 m) hw0 = (Ok tt, hw1) ->
  get_transcription hw1 = (Ok raw, hw2) ->
  clean_transcription raw = Ok t ->
  output_transcription cfg t a hw2 = (Ok tt, hw2, out) ->
  process_frame cfg a m hw0 = (Ok tt, hw2, frame_events m raw out).
Proof.
  intros Hs Hg Hc Ho. pose proof (process_frame_run cfg a m hw0) as H.
  rewrite Hs, Hg, Hc, Ho in H. exact H.
Qed.

End Output.

(** C4. A frame that is submitted, polled and sanitized without a fault,
    and whose sanitized transcription is empty after stripping white space:
    when the peak absolute amplitude of the trimmed audio exceeds 0.05 the
    frame's output is exactly one unclear-audio marker, and when the peak is
    at or below 0.05 the frame has no output at all. *)
Theorem C4_empty_transcription_gate {C : Collaborators} (cfg : Config)
        (a : list sample) (m : mel) (hw0 hw1 hw2 : backend)
        (raw t : pystr) (peak : Q) :
  send_data (mel_astype_float32 m) hw0 = (Ok tt, hw1) ->
  get_transcription hw1 = (Ok raw, hw2) ->
  clean_transcription raw = Ok t ->
  strip t = [] ->
  np_max_abs a = Ok peak ->
  ((5 # 100) < peak ->
     output_transcription cfg t a hw2 = (Ok tt, hw2, [unclear_marker (stream_output cfg)])
     /\ process_frame cfg a m hw0 =
        (Ok tt, hw2, frame_events m raw [unclear_marker (stream_output cfg)]))
  /\ (peak <= (5 # 100) ->
     output_transcription cfg t a hw2 = (Ok tt, hw2, [])
     /\ process_frame cfg a m hw0 = (Ok tt, hw2, frame_events m raw [])).
Proof.
  intros Hs Hg Hc Ht Hp.
  pose proof (output_empty cfg t a hw2 Ht Hp) as Ho.
  split; intros Hpeak.
  - apply Qlt_bool_iff in Hpeak. rewrite Hpeak in Ho.
    split; [exact Ho|]. eapply process_frame_complete; eauto.
  - apply Qlt_bool_false_iff in Hpeak. rewrite Hpeak in Ho.
    split; [exact Ho|]. eapply process_frame_complete; eauto.
Qed.

(** C4, at two concrete frames on a pipeline that answers two blanks: over
    audio that peaks at 1 the frame prints the marker, over audio that peaks
    at 0.03 it prints nothing. *)
Lemma C4_witness :
  let C := simulated 16000 (lit "  ") 7 in
  let cfg := {| is_nhwc := true; chunk_length := 5; fast_mode := false;
                stream_output := false; timing := false |} in
  @process_frame C cfg [1 # 2; -(1)] 0%nat 0%nat =
  (Ok tt, 1%nat,
   @frame_events C 0%nat (lit "  ")
     [EvPrint (lit "[Transcription] (unclear audio)") newline])
  /\ @process_frame C cfg [1 # 100; -(3 # 100)] 0%nat 0%nat =
     (Ok tt, 1%nat, @frame_events C 0%nat (lit "  ") []).
Proof.
  cbv zeta. split.
  - apply (proj1 (@C4_empty_transcription_gate (simulated 16000 (lit "  ") 7)
                    {| is_nhwc := true; chunk_length := 5; fast_mode := false;
                       stream_output := false; timing := false |}
                    [1 # 2; -(1)] 0%nat 0%nat 1%nat 1%nat (lit "  ") (lit "  ") 1
                    eq_refl eq_refl eq_refl eq_refl eq_refl)).
    reflexivity.
  - apply (proj2 (@C4_empty_transcription_gate (simulated 16000 (lit "  ") 7)
                    {| is_nhwc := true; chunk_length := 5; fast_mode := false;
                       stream_output := false; timing := false |}
                    [1 # 100; -(3 # 100)] 0%nat 0%nat 1%nat 1%nat (lit "  ") (lit "  ")
                    (3 # 100) eq_refl eq_refl eq_refl eq_refl eq_refl)).
    unfold Qle. cbn. lia.
Defined.

(** C5, as the specification words it, fails on a lone period: with the audio peaking
    at 1, well above 0.05, the frame prints nothing, not the marker. *)
Lemma C5_counterexample :
  let C := simulated 16000 (lit ".") 7 in
  let cfg := {| is_nhwc := true; chunk_length := 5; fast_mode := false;
                stream_output := false; timing := false |} in
  @meaningful (lit ".") = false /\
  np_max_abs [1 # 2; -(1)] = Ok 1 /\
  (5 # 100) < 1 /\
  @output_transcription C cfg (lit ".") [1 # 2; -(1)] 0%nat = (Ok tt, 0%nat, []) /\
  ~ (exists hw1, @output_transcription C cfg (lit ".") [1 # 2; -(1)] 0%nat =
                 (Ok tt, hw1, [unclear_marker (stream_output cfg)])).
Proof.
  cbv zeta. repeat split.
  intros [hw1 H]. vm_compute in H. discriminate H.
Qed.

(** C5 (as amended). A transcription is meaningful exactly when, stripped,
    it is neither empty nor a lone period. One that strips to a lone period
    produces no output whatever the amplitude. One that strips to nothing is
    decided by the peak against 0.05: the unclear-audio marker above it,
    nothing at or below it. *)
Theorem C5_classification {C : Collaborators} (cfg : Config)
        (t : pystr) (a : list sample) (hw0 : backend) :
  (meaningful t = true <-> strip t <> [] /\ strip t <> lit ".")
  /\ (strip t = lit "." -> output_transcription cfg t a hw0 = (Ok tt, hw0, []))
  /\ (forall peak, strip t = [] -> np_max_abs a = Ok peak ->
        ((5 # 100) < peak ->
           output_transcription cfg t a hw0 =
           (Ok tt, hw0, [unclear_marker (stream_output cfg)]))
        /\ (peak <= (5 # 100) ->
           output_transcription cfg t a hw0 = (Ok tt, hw0, []))).
Proof.
  split; [apply meaningful_iff|]. split; [apply output_period|].
  intros peak Ht Hp. pose proof (output_empty cfg t a hw0 Ht Hp) as Ho.
  split; intros Hpeak.
  - apply Qlt_bool_iff in Hpeak. now rewrite Hpeak in Ho.
  - apply Qlt_bool_false_iff in Hpeak. now rewrite Hpeak in Ho.
Qed.

(** C5 (as amended), at concrete inputs: a period padded with blanks over
    loud audio, and a blank transcription over quiet audio. *)
Lemma C5_witness :
  let C := simulated 16000 (lit ".") 7 in
  let cfg := {| is_nhwc := true; chunk_length := 5; fast_mode := false;
                stream_output := true; timing := false |} in
  @output_transcription C cfg (lit " . ") [1 # 2; -(1)] 0%nat = (Ok tt, 0%nat, [])
  /\ @output_transcription C cfg (lit " ") [1 # 100; -(3 # 100)] 0%nat = (Ok tt, 0%nat, []).
Proof.
  cbv zeta. split.
  - apply (proj1 (proj2 (@C5_classification (simulated 16000 (lit ".") 7)
                           {| is_nhwc := true; chunk_length := 5; fast_mode := false;
                              stream_output := true; timing := false |}
                           (lit " . ") [1 # 2; -(1)] 0%nat))).
    reflexivity.
  - apply (proj2 (proj2 (proj2 (@C5_classification (simulated 16000 (lit ".") 7)
                           {| is_nhwc := true; chunk_length := 5; fast_mode := false;
                              stream_output := true; timing := false |}
                           (lit " ") [1 # 100; -(3 # 100)] 0%nat))
                    (3 # 100) eq_refl eq_refl)).
    unfold Qle. cbn. lia.
Defined.

(** ** Order of processing *)

(** C9. Within a chunk whose frames are all processed without a fault, the
    loop goes through the frames in the order the extractor produced them:
    for each frame one submit, the fixed 0.05 s delay, one poll, the
    sanitizer and that frame's output, before the next frame is touched; so
    the frames submitted are the extractor's frames in order and there is
    one poll per frame. In every case (fault or not) the frames submitted
    are an initial segment of the extractor's frames, in order, with at
    most one poll each. Across chunks, along every schedule, the chunks
    processed, in order, are consecutive blocks of the required length from
    the head of the captured stream. *)
Theorem C9_processing_order {C : Collaborators} (cfg : Config) :
  (forall (a : list sample) (ms : list mel) (hw0 hw1 : backend) (t : list event),
      for_mel cfg a ms hw0 = (Ok tt, hw1, t) ->
      frames_run cfg a ms hw0 hw1 t
      /\ submitted t = map mel_astype_float32 ms
      /\ polls t = length ms)
  /\ (forall (a : list sample) (ms : list mel) (hw0 : backend),
      exists done rest,
        ms = done ++ rest
        /\ submitted (snd (for_mel cfg a ms hw0)) = map mel_astype_float32 done
        /\ (polls (snd (for_mel cfg a ms hw0)) <= length done)%nat)
  /\ (forall (whisper_hailo : backend) (schedule : list step),
      let s := real_time_stt cfg whisper_hailo schedule in
      concat (appended_blocks schedule) =
        concat (extracted_chunks (trace s)) ++ audio_buffer s
      /\ Forall (fun c => Z.of_nat (length c) = required_samples cfg)
                (extracted_chunks (trace s))).
Proof.
  split; [|split].
  - intros a ms hw0 hw1 t H.
    pose proof (for_mel_ok cfg a ms hw0 H) as Hrun.
    split; [exact Hrun|]. exact (frames_run_submitted Hrun).
  - intros a ms hw0.
    destruct (for_mel_events cfg a ms hw0)
      as (r & hw1 & t & done & rest & Hrun & Hms & Hs & _ & Hp & _).
    exists done, rest. rewrite Hrun. cbn [snd]. auto.
  - intros whisper_hailo schedule s. split.
    + apply session_conserves.
    + apply (run_chunk_lengths cfg schedule (session_start whisper_hailo)).
      cbn. constructor.
Qed.

(** C9, at a concrete chunk of two frames on the simulated pipeline. *)
Lemma C9_witness :
  let C := simulated 16000 (lit "hello") 7 in
  let cfg := {| is_nhwc := true; chunk_length := 5; fast_mode := false;
                stream_output := false; timing := false |} in
  @submitted C (snd (@for_mel C cfg [1 # 2] [0%nat; 1%nat] 0%nat)) = [0%nat; 1%nat]
  /\ @polls C (snd (@for_mel C cfg [1 # 2] [0%nat; 1%nat] 0%nat)) = 2%nat.
Proof.
  cbv zeta.
  exact (proj2 (proj1 (@C9_processing_order (simulated 16000 (lit "hello") 7)
                   {| is_nhwc := true; chunk_length := 5; fast_mode := false;
                      stream_output := false; timing := false |})
                  [1 # 2] [0%nat; 1%nat] 0%nat 2%nat _ eq_refl)).
Defined.

(** ** Faults *)

(** C8, as the specification words it, fails when the fault comes after a
    frame has already been printed: the extractor yields two frames, the first is
    transcribed and printed, the pipeline refuses the second. The chunk has
    output besides the logged fault. *)
Lemma C8_counterexample :
  let C := simulated 16000 (lit "hello") 1 in
  let cfg := {| is_nhwc := true; chunk_length := 5; fast_mode := false;
                stream_output := false; timing := false |} in
  let chunk : list sample := [1 # 2; 1 # 4] in
  fst (fst (@try_body C cfg chunk 0%nat)) = Raise (lit "device busy")
  /\ @printed C (snd (@process_chunk C cfg chunk 0%nat)) =
     [(lit "[Transcription] hello", newline); (lit "Error: device busy", newline)]
  /\ @printed C (snd (@process_chunk C cfg chunk 0%nat)) <>
     [(lit "Error: device busy", newline)].
Proof.
  cbv zeta. split; [reflexivity|]. split; [reflexivity|].
  intros H. vm_compute in H. discriminate H.
Qed.

(** C8 (as amended). When the processing of an extracted chunk raises a
    fault, the worker iteration still ends normally: the events of the chunk
    up to the fault are followed by the one logged line [Error: ...] and the
    idle sleep, nothing else is emitted for the chunk after the fault, and
    the session goes on from the buffer left by the extraction, which is the
    same as without a fault. When the fault comes from the trimmer or from
    the feature extractor, the chunk has no output at all before the logged
    line. *)
Theorem C8_fault_isolation {C : Collaborators} (cfg : Config)
        (s : session) (e : exn) (hw1 : backend) (t : list event) :
  let n := required_samples cfg in
  let chunk := firstn (Z.to_nat n) (audio_buffer s) in
  (0 < n <= Z.of_nat (length (audio_buffer s)))%Z ->
  try_body cfg chunk (hw s) = (Raise e, hw1, t) ->
  transcription_worker cfg s =
    Session (skipn (Z.to_nat n) (audio_buffer s)) hw1 (S (chunks_processed s))
            (trace s ++ t ++ [EvPrint (lit "Error: " ++ e) newline; EvSleep (1 # 100)])
  /\ audio_buffer (transcription_worker cfg s) = snd (try_extract n (audio_buffer s))
  /\ (((exists e', improve_input_audio chunk (negb (fast_mode cfg)) true = Raise e')
       \/ (exists a onset e',
             improve_input_audio chunk (negb (fast_mode cfg)) true = Ok (a, onset)
             /\ preprocess (astype_float32 a) (is_nhwc cfg) (chunk_length cfg)
                           (chunk_offset_of onset) = Raise e'))
      -> printed t = []).
Proof.
  intros n chunk Hn Hbody.
  destruct (transcription_worker_chunk cfg s Hn) as (hw1' & t' & Hp & _ & Hw).
  fold n in Hp, Hw. fold chunk in Hp.
  pose proof (process_chunk_run cfg chunk (hw s)) as Hr.
  rewrite Hbody, Hp in Hr. inversion Hr; subst hw1' t'.
  assert (Hfinal : transcription_worker cfg s =
    Session (skipn (Z.to_nat n) (audio_buffer s)) hw1 (S (chunks_processed s))
            (trace s ++ t ++ [EvPrint (lit "Error: " ++ e) newline; EvSleep (1 # 100)])).
  { rewrite Hw. f_equal. rewrite <- !app_assoc. reflexivity. }
  split; [exact Hfinal|]. split.
  - rewrite Hfinal. cbn [audio_buffer].
    now rewrite (try_extract_ready _ Hn).
  - pose proof (try_body_run cfg chunk (hw s)) as Hb. cbv zeta in Hb.
    intros [[e' He]|(a & onset & e' & Ha & He)].
    + rewrite He in Hb. rewrite Hb in Hbody. inversion Hbody. reflexivity.
    + rewrite Ha, He in Hb. rewrite Hb in Hbody. inversion Hbody. reflexivity.
Qed.

(** C8 (as amended), at a concrete session: two samples per chunk, three in
    the buffer, and a pipeline that refuses the first frame. *)
Lemma C8_witness :
  let C := simulated 2 (lit "hello") 0 in
  let cfg := {| is_nhwc := true; chunk_length := 1; fast_mode := false;
                stream_output := false; timing := false |} in
  let s := @Session C [1 # 2; 1 # 4; 1 # 8] 0%nat 0%nat [] in
  @transcription_worker C cfg s =
  @Session C [1 # 8] 0%nat 1%nat
    [EvTrim [1 # 2; 1 # 4] true true;
     EvPreprocess [1 # 2; 1 # 4] true 1 (8 # 10);
     EvSend 0%nat;
     EvPrint (lit "Error: device busy") newline;
     EvSleep (1 # 100)].
Proof.
  cbv zeta.
  exact (proj1 (@C8_fault_isolation (simulated 2 (lit "hello") 0)
                  {| is_nhwc := true; chunk_length := 1; fast_mode := false;
                     stream_output := false; timing := false |}
                  (@Session (simulated 2 (lit "hello") 0)
                            [1 # 2; 1 # 4; 1 # 8] 0%nat 0%nat [])
                  (lit "device busy") 0%nat
                  [@EvTrim (simulated 2 (lit "hello") 0) [1 # 2; 1 # 4] true true;
                   EvPreprocess [1 # 2; 1 # 4] true 1 (8 # 10);
                   @EvSend (simulated 2 (lit "hello") 0) 0%nat]
                  ltac:(vm_compute; split; [reflexivity | discriminate])
                  eq_refl)).
Defined.

(** ** Fast mode *)

(** C7. With the trimmer behaving as its contract says, every chunk is
    handed to the trimmer with VAD equal to the negation of the fast-mode
    flag. With fast mode enabled the VAD flag is off, an onset the trimmer
    returns is none, and the offset handed to the feature extractor is 0;
    with fast mode disabled the VAD flag is on. *)
Theorem C7_fast_mode (C0 : Collaborators)
        (gain_stage : list sample -> bool -> result (list sample))
        (detect_first_speech : list sample -> result (option Q))
        (cfg : Config) (chunk : list sample) (hw0 : @backend C0) :
  let C := with_spec_trimmer C0 gain_stage detect_first_speech in
  (fast_mode cfg = true ->
     (exists r hw1 t,
        @try_body C cfg chunk hw0 = (r, hw1, @EvTrim C chunk false true :: t))
     /\ (forall a onset,
           @improve_input_audio C chunk false true = Ok (a, onset) ->
           onset = None
           /\ exists r hw1 t,
               @try_body C cfg chunk hw0 =
               (r, hw1,
                @EvTrim C chunk false true
                :: EvPreprocess (astype_float32 a) (is_nhwc cfg) (chunk_length cfg) 0
                :: t)))
  /\ (fast_mode cfg = false ->
        exists r hw1 t,
          @try_body C cfg chunk hw0 = (r, hw1, @EvTrim C chunk true true :: t)).
Proof.
  intros C. split; intros Hfast.
  - split.
    + destruct (@try_body_events C cfg chunk hw0) as (r & hw1 & t & H & _).
      rewrite Hfast in H. eauto.
    + intros a onset Ha.
      assert (Honset : onset = None).
      { cbn in Ha. unfold spec_improve_input_audio in Ha.
        destruct (gain_stage chunk true); inversion Ha. reflexivity. }
      split; [exact Honset|]. subst onset.
      pose proof (@try_body_run C cfg chunk hw0) as H. cbv zeta in H.
      rewrite Hfast in H. cbn [negb] in H. rewrite Ha in H.
      cbn [chunk_offset_of] in H.
      destruct (@preprocess C (astype_float32 a) (is_nhwc cfg) (chunk_length cfg) 0)
        as [ms|e]; [|eauto].
      destruct (@for_mel C cfg a ms hw0) as [[r hw1] t]. eauto.
  - destruct (@try_body_events C cfg chunk hw0) as (r & hw1 & t & H & _).
    rewrite Hfast in H. eauto.
Qed.

(** C7, at a concrete chunk in fast mode, with a detector that would report
    an onset of 1 s if it were asked. *)
Lemma C7_witness :
  let C := with_spec_trimmer (simulated 16000 (lit "hello") 7)
             (fun a _ => Ok a) (fun _ => Ok (Some 1)) in
  let cfg := {| is_nhwc := true; chunk_length := 5; fast_mode := true;
                stream_output := false; timing := false |} in
  exists r hw1 t,
    @try_body C cfg [1 # 2; 1 # 4] 0%nat =
    (r, hw1,
     @EvTrim C [1 # 2; 1 # 4] false true
     :: EvPreprocess [1 # 2; 1 # 4] true 5 0 :: t).
Proof.
  cbv zeta.
  exact (proj2 (proj2 (proj1 (@C7_fast_mode (simulated 16000 (lit "hello") 7)
                                (fun a _ => Ok a) (fun _ => Ok (Some 1))
                                {| is_nhwc := true; chunk_length := 5; fast_mode := true;
                                   stream_output := false; timing := false |}
                                [1 # 2; 1 # 4] 0%nat)
                             eq_refl)
                      [1 # 2; 1 # 4] None eq_refl)).
Defined.

(** ** Start-up *)

Section Idle.
Context {C : Collaborators}.
Variable cfg : Config.
Hypothesis invalid : (required_samples cfg <= 0)%Z.

(** With a count that is not positive no step processes anything. *)
Lemma run_step_idle (s : session) (st : step) :
  let s' := run_step cfg s st in
  chunks_processed s' = chunks_processed s
  /\ hw s' = hw s
  /\ extracted_chunks (trace s') = extracted_chunks (trace s).
Proof.
  destruct st as [indata status|]; cbn [run_step].
  - unfold audio_callback. cbn [chunks_processed hw trace].
    rewrite extracted_chunks_app.
    destruct status; cbn [extracted_chunks]; rewrite app_nil_r; auto.
  - rewrite (transcription_worker_idle cfg s
               (try_extract_not_ready _ (or_introl invalid))).
    cbn [chunks_processed hw trace]. rewrite extracted_chunks_app.
    cbn [extracted_chunks]. rewrite app_nil_r. auto.
Qed.

Lemma run_idle (schedule : list step) :
  forall s : session,
    let s' := fold_left (run_step cfg) schedule s in
    chunks_processed s' = chunks_processed s
    /\ hw s' = hw s
    /\ extracted_chunks (trace s') = extracted_chunks (trace s).
Proof.
  induction schedule as [|st schedule IH]; intros s; [cbn; auto|].
  cbn [fold_left]. cbv zeta.
  destruct (IH (run_step cfg s st)) as (H1 & H2 & H3).
  destruct (run_step_idle s st) as (G1 & G2 & G3).
  rewrite H1, H2, H3, G1, G2, G3. auto.
Qed.

End Idle.

(** C6, as the specification words it, fails: with [--real-time --chunk-length 0] and
    all resources in place the count is 0, and start-up is not fatal; [main]
    enters the real-time loop with that chunk length. *)
Lemma C6_counterexample :
  let C := simulated 16000 (lit "hello") 7 in
  let P := simulated_platform 16000 (lit "hello") 7 in
  let args := {| reuse_audio := false; args_hw_arch := hailo8; args_variant := base;
                 multi_process_service := false; real_time := true;
                 args_fast_mode := false; args_stream_output := false;
                 args_timing := false; args_chunk_length := Some 0 |} in
  let cfg := {| is_nhwc := true; chunk_length := 0; fast_mode := false;
                stream_output := false; timing := false |} in
  @required_samples C cfg = 0%Z
  /\ snd (@main C P args) = @RealTime C 0%nat cfg
  /\ ~ (exists e, snd (@main C P args) = @Fatal C e).
Proof.
  cbv zeta. split; [reflexivity|]. split; [reflexivity|].
  intros [e H]. vm_compute in H. discriminate H.
Qed.

(** C6 (as amended). In real-time mode, when the two HEF files and the
    pipeline are available, [main] enters the real-time loop with the chunk
    length it was given (or the default of the variant), whatever its sign:
    a chunk duration whose product with the sample rate is zero or negative
    is not rejected at start-up. In the loop such a duration makes every
    extraction return not-ready: along every schedule no chunk is processed,
    the pipeline is not used, and the buffer holds everything captured. *)
Theorem C6_invalid_duration_not_rejected {C : Collaborators} {P : Platform}
        (args : Args) (encoder_path decoder_path : pystr) (whisper_hailo : backend) :
  real_time args = true ->
  get_hef_path (args_variant args) (args_hw_arch args) encoder = Ok encoder_path ->
  get_hef_path (args_variant args) (args_hw_arch args) decoder = Ok decoder_path ->
  HailoWhisperPipeline encoder_path decoder_path (args_variant args)
                       (multi_process_service args) = Ok whisper_hailo ->
  let cfg := {| is_nhwc := true;
                chunk_length := real_time_chunk_length args;
                fast_mode := args_fast_mode args;
                stream_output := args_stream_output args;
                timing := args_timing args |} in
  snd (main args) = RealTime whisper_hailo cfg
  /\ ((required_samples cfg <= 0)%Z ->
      forall schedule : list step,
        let s := real_time_stt cfg whisper_hailo schedule in
        program args schedule = Some s
        /\ chunks_processed s = 0%nat
        /\ extracted_chunks (trace s) = []
        /\ hw s = whisper_hailo
        /\ audio_buffer s = concat (appended_blocks schedule)).
Proof.
  intros Hrt Henc Hdec Hpipe cfg.
  assert (Hmain : snd (main args) = RealTime whisper_hailo cfg).
  { unfold main. rewrite Henc, Hdec, Hpipe, Hrt.
    destruct (args_timing args); reflexivity. }
  split; [exact Hmain|].
  intros Hinvalid schedule s.
  destruct (run_idle cfg Hinvalid schedule (session_start whisper_hailo))
    as (Hc & Hh & Hx).
  fold (real_time_stt cfg whisper_hailo schedule) in Hc, Hh, Hx. fold s in Hc, Hh, Hx.
  cbn in Hc, Hh, Hx.
  split; [unfold program; rewrite Hmain; reflexivity|].
  split; [exact Hc|]. split; [exact Hx|]. split; [exact Hh|].
  pose proof (session_conserves cfg whisper_hailo schedule) as Hcons.
  cbv zeta in Hcons. fold s in Hcons. rewrite Hx in Hcons. exact (eq_sym Hcons).
Qed.

(** C6 (as amended), at [--real-time --chunk-length -1] on the simulated
    platform, with one block captured before the worker runs. *)
Lemma C6_witness :
  let C := simulated 16000 (lit "hello") 7 in
  let P := simulated_platform 16000 (lit "hello") 7 in
  let args := {| reuse_audio := false; args_hw_arch := hailo8; args_variant := tiny;
                 multi_process_service := false; real_time := true;
                 args_fast_mode := false; args_stream_output := false;
                 args_timing := false; args_chunk_length := Some (-1) |} in
  let cfg := {| is_nhwc := true; chunk_length := -1; fast_mode := false;
                stream_output := false; timing := false |} in
  snd (@main C P args) = @RealTime C 0%nat cfg
  /\ @chunks_processed C
       (@real_time_stt C cfg 0%nat [Capture [(1 # 2, []); (1 # 4, [])] None; Work]) = 0%nat.
Proof.
  cbv zeta.
  pose proof (@C6_invalid_duration_not_rejected
                (simulated 16000 (lit "hello") 7)
                (simulated_platform 16000 (lit "hello") 7)
                {| reuse_audio := false; args_hw_arch := hailo8; args_variant := tiny;
                   multi_process_service := false; real_time := true;
                   args_fast_mode := false; args_stream_output := false;
                   args_timing := false; args_chunk_length := Some (-1) |}
                (lit "enc.hef") (lit "dec.hef") 0%nat
                eq_refl eq_refl eq_refl eq_refl) as [Hmain Hloop].
  split; [exact Hmain|].
  exact (proj1 (proj2 (Hloop ltac:(vm_compute; discriminate)
                             [Capture [(1 # 2, []); (1 # 4, [])] None; Work]))).
Defined.

(** ** The timing decorator *)

Section TimingProperties.
Import timing_utils.
Variables heap args ret : Type.
Variable format_timing : pystr -> Q -> pystr.

Lemma timed_print_frame (message : pystr) (w : world heap) :
  SHOW_TIMING (timed_print message w) = SHOW_TIMING w
  /\ clock (timed_print message w) = clock w
  /\ user (timed_print message w) = user w
  /\ stdout (timed_print message w) =
     stdout w ++ (if SHOW_TIMING w then [message] else []).
Proof.
  unfold timed_print. destruct (SHOW_TIMING w) eqn:H; cbn.
  - auto.
  - rewrite H, app_nil_r. auto.
Qed.

(** C10. For every function [func], every argument and every world,
    whichever way the timing flag was set, the decorated function returns
    what [func] returns (a value or the same exception). The world it
    leaves is the one [func] leaves, except that standard output has one
    more line, the timing message, when the flag was on at the call, is
    still on after it, and [func] returned normally. *)
Theorem C10_time_function_transparent
        (name : pystr) (func : pyfun heap args ret) (a : args)
        (flag : bool) (w : world heap) :
  let w0 := set_timing_display flag w in
  let w1 := snd (func a w0) in
  let w2 := snd (time_function format_timing name func a w0) in
  fst (time_function format_timing name func a w0) = fst (func a w0)
  /\ SHOW_TIMING w2 = SHOW_TIMING w1
  /\ clock w2 = clock w1
  /\ user w2 = user w1
  /\ stdout w2 =
     stdout w1 ++
     match fst (func a w0) with
     | Ok _ =>
         if flag && SHOW_TIMING w1
         then [format_timing name (clock w1 - clock w0)]
         else []
     | Raise _ => []
     end.
Proof.
  cbv zeta. unfold time_function, time_time. cbn [set_timing_display SHOW_TIMING].
  destruct flag.
  - destruct (func a (set_timing_display true w)) as [[res|e] w1] eqn:Hf; cbn [fst snd].
    + destruct (timed_print_frame
                  (format_timing name (clock w1 - clock (set_timing_display true w))) w1)
        as (H1 & H2 & H3 & H4).
      rewrite H1, H2, H3, H4. cbn [andb]. auto.
    + rewrite app_nil_r. auto.
  - destruct (func a (set_timing_display false w)) as [[res|e] w1]; cbn [fst snd andb];
      rewrite app_nil_r; auto.
Qed.

End TimingProperties.

(** * Further properties of the code *)

(** ** Start-up *)

(** X1. [get_hef_path] returns a path exactly when the registry has an
    entry for the variant, the architecture and the component and that file
    exists; it never returns a path that is not on disk, and in every other
    case it raises. *)
Theorem X1_get_hef_path_ok_iff {C : Collaborators} {P : Platform}
        (v : variant) (a : hw_arch) (c : component) (p : pystr) :
  get_hef_path v a c = Ok p
  <-> HEF_REGISTRY v a c = Some p /\ os_path_exists p = true.
Proof.
  unfold get_hef_path. split.
  - destruct (HEF_REGISTRY v a c) as [hef_path|]; [|discriminate].
    destruct (os_path_exists hef_path) eqn:He; [|discriminate].
    intros H. inversion H; subst. auto.
  - intros [Hr He]. rewrite Hr, He. reflexivity.
Qed.


Lemma default_chunk_length (v : variant) :
  (if pystr_in (lit "tiny") (variant_str v) then 10 else 5) =
  match v with base => 5 | tiny | tiny_en => 10 end.
Proof. destruct v; reflexivity. Qed.

(** X3. The chunk length [main] uses. In real-time mode a [--chunk-length]
    given on the command line wins, and without one the length is 10 s for
    the variants [tiny] and [tiny.en] and 5 s for [base]. In batch mode the
    option is ignored: the length is the default of the variant whatever
    [--chunk-length] says. *)
Theorem X3_chunk_length_selection {C : Collaborators} {P : Platform} (args : Args) :
  real_time_chunk_length args =
    match args_chunk_length args with
    | Some c => c
    | None => match args_variant args with base => 5 | tiny | tiny_en => 10 end
    end
  /\ match snd (main args) with
     | RealTime _ cfg => chunk_length cfg = real_time_chunk_length args
     | Batch _ chunk_len =>
         chunk_len = match args_variant args with base => 5 | tiny | tiny_en => 10 end
     | Fatal _ => True
     end.
Proof.
  split.
  - unfold real_time_chunk_length. destruct (args_chunk_length args); [reflexivity|].
    apply default_chunk_length.
  - unfold main.
    destruct (get_hef_path _ _ encoder); [|exact I].
    destruct (get_hef_path _ _ decoder); [|exact I].
    destruct (HailoWhisperPipeline _ _ _ _); [|exact I].
    destruct (real_time args); cbn; [reflexivity|apply default_chunk_length].
Qed.

(** ** Output of one transcription *)

Section OutputText.
Context {C : Collaborators}.
Variable cfg : Config.

Lemma rendered_app (t1 t2 : list event) :
  rendered (t1 ++ t2) = rendered t1 ++ rendered t2.
Proof.
  induction t1 as [|e t1 IH]; [reflexivity|].
  destruct e; cbn; rewrite ?IH, <- ?app_assoc; reflexivity.
Qed.

Lemma pauses_app (t1 t2 : list event) :
  pauses (t1 ++ t2) = pauses t1 ++ pauses t2.
Proof.
  induction t1 as [|e t1 IH]; [reflexivity|].
  destruct e; cbn; rewrite IH; reflexivity.
Qed.

Lemma stream_rendered (s : pystr) :
  rendered (flat_map (fun c => [EvPrint [c] []; EvSleep (1 # 100)]) s) = s
  /\ pauses (flat_map (fun c => [EvPrint [c] []; @EvSleep C (1 # 100)]) s) =
     repeat (1 # 100) (length s).
Proof.
  induction s as [|c s [IHr IHp]]; [split; reflexivity|].
  cbn. rewrite IHr, IHp. split; reflexivity.
Qed.

(** X4. A meaningful transcription is always printed, whatever the audio
    (the peak is never consulted, so even empty audio raises nothing), and
    the characters that reach standard output are the same in both modes:
    the tag, the transcription as returned by the sanitizer (not stripped)
    and a newline. Streaming only adds one 0.01 s pause per character. *)
Theorem X4_meaningful_output (t : pystr) (a : list sample) (hw0 : backend) :
  meaningful t = true ->
  exists out,
    output_transcription cfg t a hw0 = (Ok tt, hw0, out)
    /\ rendered out = lit "[Transcription] " ++ t ++ newline
    /\ pauses out = if stream_output cfg then repeat (1 # 100) (length t) else [].
Proof.
  intros Hm. unfold output_transcription. rewrite Hm.
  destruct (stream_output cfg).
  - run_m. rewrite stream_chars_run. eexists. split; [reflexivity|].
    destruct (stream_rendered t) as [Hr Hp].
    rewrite !rendered_app, !pauses_app, Hr, Hp. cbn. rewrite ?app_nil_r.
    split; reflexivity.
  - run_m. eexists. split; [reflexivity|]. cbn. rewrite ?app_nil_r, <- ?app_assoc.
    split; reflexivity.
Qed.

(** X5. The output step raises in one case only: the transcription strips
    to nothing and the trimmed audio is empty, where [np.max] has nothing to
    reduce. In every other case it returns normally. *)
Theorem X5_output_raises_iff (t : pystr) (a : list sample) (hw0 : backend) (e : exn) :
  fst (fst (output_transcription cfg t a hw0)) = Raise e
  <-> strip t = [] /\ a = []
      /\ e = lit "zero-size array to reduction operation maximum which has no identity".
Proof.
  unfold output_transcription.
  destruct (meaningful t) eqn:Hm.
  - apply meaningful_iff in Hm as [Hne _]. split.
    + destruct (stream_output cfg); run_m; [rewrite stream_chars_run|];
        cbn; intros H; discriminate H.
    + intros [Hs _]. contradiction.
  - destruct (pystr_eqb (strip t) (lit ".")) eqn:Hp.
    + apply pystr_eqb_eq in Hp. split.
      * cbn. intros H. discriminate H.
      * intros [Hs _]. rewrite Hs in Hp. discriminate Hp.
    + assert (Hs : strip t = []).
      { unfold meaningful in Hm. rewrite Hp in Hm. cbn in Hm.
        rewrite andb_true_r in Hm. destruct (strip t); [reflexivity|discriminate Hm]. }
      run_m. destruct a as [|x a].
      * cbn. split.
        -- intros H. inversion H. auto.
        -- intros (_ & _ & ->). reflexivity.
      * cbn [np_max_abs]. split.
        -- destruct (Qlt_bool _ _); [destruct (stream_output cfg)|];
             cbn; intros H; discriminate H.
        -- intros (_ & H & _). discriminate H.
Qed.

End OutputText.

(** ** The worker over several iterations *)

Section Backlog.
Context {C : Collaborators}.
Variable cfg : Config.

Lemma run_step_counts (s : session) (st : step) :
  chunks_processed s = length (extracted_chunks (trace s)) ->
  chunks_processed (run_step cfg s st) =
  length (extracted_chunks (trace (run_step cfg s st))).
Proof.
  intros H. destruct st as [indata status|]; cbn [run_step].
  - unfold audio_callback. cbn [chunks_processed trace].
    rewrite extracted_chunks_app.
    destruct status; cbn [extracted_chunks]; rewrite app_nil_r; exact H.
  - destruct (ready_or_not (required_samples cfg) (audio_buffer s)) as [Hn|Hn].
    + destruct (transcription_worker_chunk cfg s Hn) as (hw1 & t & _ & Hx & Hw).
      rewrite Hw. cbn [chunks_processed trace].
      rewrite !extracted_chunks_app, Hx, !length_app. cbn. lia.
    + rewrite (transcription_worker_idle cfg s (try_extract_not_ready _ Hn)).
      cbn [chunks_processed trace]. rewrite extracted_chunks_app. cbn [extracted_chunks].
      now rewrite app_nil_r.
Qed.

(** X7. Along every schedule the counter [chunks_processed] is the number
    of chunks taken out of the buffer, which is also the number of calls of
    the trimmer: every extracted chunk is processed, and nothing else is. *)
Theorem X7_chunks_processed_counts (whisper_hailo : backend) (schedule : list step) :
  let s := real_time_stt cfg whisper_hailo schedule in
  chunks_processed s = length (extracted_chunks (trace s)).
Proof.
  cbv zeta. unfold real_time_stt.
  assert (H : chunks_processed (session_start whisper_hailo) =
              length (extracted_chunks (trace (session_start whisper_hailo))))
    by reflexivity.
  revert H. generalize (session_start whisper_hailo).
  induction schedule as [|st schedule IH]; intros s H; [exact H|].
  cbn [fold_left]. apply IH, run_step_counts, H.
Qed.

(** X6. Worker iterations with no capture in between take one chunk each as
    long as the buffer holds a full chunk, and then idle: after [k]
    iterations some number [q <= k] of chunks has been processed, the buffer
    is the old one without its first [q] chunks, and if fewer than [k]
    chunks were taken the buffer holds less than one chunk. *)
Theorem X6_worker_drains (k : nat) :
  (0 < required_samples cfg)%Z ->
  forall s : session,
    let n := Z.to_nat (required_samples cfg) in
    let s' := fold_left (run_step cfg) (repeat Work k) s in
    exists q : nat,
      (q <= k)%nat
      /\ chunks_processed s' = (chunks_processed s + q)%nat
      /\ audio_buffer s' = skipn (q * n) (audio_buffer s)
      /\ (length (audio_buffer s') + q * n = length (audio_buffer s))%nat
      /\ ((q < k)%nat -> (length (audio_buffer s') < n)%nat).
Proof.
  intros Hpos. induction k as [|k IH]; intros s n s'.
  - exists 0%nat. subst s'. cbn. repeat split; lia.
  - subst s'. cbn [repeat fold_left run_step].
    destruct (ready_or_not (required_samples cfg) (audio_buffer s)) as [Hn|Hn].
    + destruct (transcription_worker_chunk cfg s Hn) as (hw1 & t & _ & _ & Hw).
      assert (Hb1 : audio_buffer (transcription_worker cfg s) = skipn n (audio_buffer s))
        by (rewrite Hw; reflexivity).
      assert (Hc1 : chunks_processed (transcription_worker cfg s) = S (chunks_processed s))
        by (rewrite Hw; reflexivity).
      destruct (IH (transcription_worker cfg s)) as (q & Hq & Hc & Hb & Hl & Hd).
      fold n in Hb, Hl, Hd. rewrite Hb1 in Hb, Hl. rewrite Hc1 in Hc.
      rewrite length_skipn in Hl. rewrite skipn_skipn in Hb.
      exists (S q). split; [lia|]. split; [lia|].
      split; [rewrite Hb; f_equal; lia|]. split; [lia|]. intros Hlt. apply Hd. lia.
    + assert (Hshort : (length (audio_buffer s) < n)%nat) by lia.
      pose proof (transcription_worker_idle cfg s (try_extract_not_ready _ Hn)) as Hw.
      assert (Hb1 : audio_buffer (transcription_worker cfg s) = audio_buffer s)
        by (rewrite Hw; reflexivity).
      assert (Hc1 : chunks_processed (transcription_worker cfg s) = chunks_processed s)
        by (rewrite Hw; reflexivity).
      destruct (IH (transcription_worker cfg s)) as (q & Hq & Hc & Hb & Hl & Hd).
      fold n in Hb, Hl, Hd. rewrite Hb1 in Hb, Hl. rewrite Hc1 in Hc.
      assert (q = 0)%nat by nia. subst q.
      exists 0%nat. split; [lia|]. split; [lia|]. split; [exact Hb|]. split; [lia|].
      intros _. lia.
Qed.

End Backlog.

(** X6, at a buffer of five samples with two samples per chunk and three
    iterations: two chunks are taken and one sample stays. *)
Lemma X6_witness :
  let C := simulated 2 (lit "hello") 7 in
  let cfg := {| is_nhwc := true; chunk_length := 1; fast_mode := false;
                stream_output := false; timing := false |} in
  let s := @Session C [1 # 2; 1 # 4; 1 # 8; 1 # 16; 1 # 32] 0%nat 0%nat [] in
  let s' := fold_left (@run_step C cfg) (repeat Work 3) s in
  exists q : nat,
    (q <= 3)%nat
    /\ @chunks_processed C s' = (0 + q)%nat
    /\ @audio_buffer C s' = skipn (q * 2) [1 # 2; 1 # 4; 1 # 8; 1 # 16; 1 # 32]
    /\ (length (@audio_buffer C s') + q * 2 = 5)%nat
    /\ ((q < 3)%nat -> (length (@audio_buffer C s') < 2)%nat).
Proof.
  cbv zeta.
  exact (@X6_worker_drains (simulated 2 (lit "hello") 7)
           {| is_nhwc := true; chunk_length := 1; fast_mode := false;
              stream_output := false; timing := false |}
           3 ltac:(vm_compute; reflexivity)
           (@Session (simulated 2 (lit "hello") 7)
                     [1 # 2; 1 # 4; 1 # 8; 1 # 16; 1 # 32] 0%nat 0%nat [])).
Defined.

(** ** The batch mode *)

Section BatchProperties.
Context {C : Collaborators} {P : Platform} {B : BatchEnv}.



(** X10. The batch pass has no test for a missing onset: when the trimmer
    finds no speech and returns [None], the pass raises [TypeError] right
    after the trimmer, before the feature extractor or the pipeline is
    called; with [--reuse-audio] on an existing file, [main] then ends with
    that exception and the pipeline is not stopped. *)
Theorem X10_batch_missing_onset (chunk_len : Q) (a a' : list sample) (hw0 : backend) :
  improve_input_audio a true low_audio_gain_default = Ok (a', None) ->
  batch_pass chunk_len (Ok a) hw0 =
    (Raise type_error, hw0, [EvTrim a true low_audio_gain_default])
  /\ (os_path_exists audio_path = true ->
      stop_after (reuse_loop chunk_len (Ok a) hw0) =
      (Uncaught type_error, hw0, [EvTrim a true low_audio_gain_default], false)).
Proof.
  intros Ht.
  assert (Hpass : batch_pass chunk_len (Ok a) hw0 =
                  (Raise type_error, hw0, [EvTrim a true low_audio_gain_default])).
  { unfold batch_pass. run_m. rewrite Ht. reflexivity. }
  split; [exact Hpass|].
  intros He. unfold reuse_loop. rewrite He, Hpass. reflexivity.
Qed.

(** X12. With [--reuse-audio] and no recording on disk, batch mode prints
    the notice and leaves: the pipeline that start-up built is never used,
    nothing is asked at the prompt, and the pipeline is stopped. *)
Theorem X12_reuse_without_file (args : Args) (whisper_hailo : backend) (chunk_len : Q)
        (file : result (list sample)) (rounds : list round) :
  snd (main args) = Batch whisper_hailo chunk_len ->
  reuse_audio args = true ->
  os_path_exists audio_path = false ->
  exists x,
    main_batch args file rounds =
    Some (x, snd (stop whisper_hailo),
          [EvPrint (lit "Audio file sampled_audio.wav not found. Please record audio first.")
                   newline],
          true)
    /\ (fst (stop whisper_hailo) = Ok tt -> x = Returned).
Proof.
  intros Hm Hr He. unfold main_batch, reuse_loop. rewrite Hm, Hr, He.
  unfold stop_after. destruct (stop whisper_hailo) as [[[]|e] hw2]; cbn.
  - exists Returned. split; reflexivity.
  - exists (Uncaught e). split; [reflexivity|]. intros H. discriminate H.
Qed.

(** X14. Typing [q] (in either case, as [lower] decides) ends the
    interactive loop: at the first prompt nothing is recorded or sent to the
    pipeline, and whatever would be typed after a [q] makes no difference. *)
Theorem X14_quit_ends_loop (chunk_len : Q) (before after : list round) (quit : round)
        (hw0 : backend) :
  lower (user_input quit) = lit "q" ->
  interactive_loop chunk_len (quit :: after) hw0 = (Returned, hw0, [EvPrint prompt []])
  /\ interactive_loop chunk_len (before ++ quit :: after) hw0 =
     interactive_loop chunk_len (before ++ [quit]) hw0.
Proof.
  intros Hq.
  assert (Hfirst : forall rest hw1,
             interactive_loop chunk_len (quit :: rest) hw1 =
             (Returned, hw1, [EvPrint prompt []])).
  { intros rest hw1. cbn [interactive_loop]. rewrite Hq. reflexivity. }
  split; [apply Hfirst|].
  revert hw0. induction before as [|r before IH]; intros hw0.
  - cbn [app]. rewrite !Hfirst. reflexivity.
  - cbn [app interactive_loop].
    destruct (pystr_eqb (lower (user_input r)) (lit "q")); [reflexivity|].
    destruct (recorded r); [|reflexivity].
    destruct (batch_pass chunk_len (loaded r) hw0) as [[[u|e] hw1] t]; [|reflexivity].
    rewrite IH. reflexivity.
Qed.

(** X15. Batch mode has no fault isolation: when a pass raises, from the
    loader, the trimmer, the extractor, the pipeline or the sanitizer, the
    loop ends there with that exception; the rounds that would follow are
    not run and the pipeline is not stopped. *)
Theorem X15_batch_fault_ends_main (chunk_len : Q) (r : round) (rest : list round)
        (hw0 hw1 : backend) (audio : list sample) (e : exn) (t : list event) :
  lower (user_input r) <> lit "q" ->
  recorded r = Ok audio ->
  batch_pass chunk_len (loaded r) hw0 = (Raise e, hw1, t) ->
  stop_after (interactive_loop chunk_len (r :: rest) hw0) =
  (Uncaught e, hw1, EvPrint prompt [] :: t, false).
Proof.
  intros Hq Hrec Hpass. cbn [interactive_loop].
  destruct (pystr_eqb (lower (user_input r)) (lit "q")) eqn:Hb.
  - apply pystr_eqb_eq in Hb. contradiction.
  - rewrite Hrec, Hpass. reflexivity.
Qed.

End BatchProperties.

(** X4, at the transcription [" hi "] in streaming mode over empty audio. *)
Lemma X4_witness :
  let C := simulated 16000 (lit "hello") 7 in
  let cfg := {| is_nhwc := true; chunk_length := 5; fast_mode := false;
                stream_output := true; timing := false |} in
  exists out,
    @output_transcription C cfg (lit " hi ") [] 0%nat = (Ok tt, 0%nat, out)
    /\ @rendered C out = lit "[Transcription] " ++ lit " hi " ++ newline
    /\ @pauses C out = repeat (1 # 100) 4.
Proof.
  cbv zeta.
  exact (@X4_meaningful_output (simulated 16000 (lit "hello") 7)
           {| is_nhwc := true; chunk_length := 5; fast_mode := false;
              stream_output := true; timing := false |}
           (lit " hi ") [] 0%nat eq_refl).
Defined.


(** X10, on a recording in which the trimmer finds no speech. *)
Lemma X10_witness :
  let C := silent 16000 (lit "hello") 7 in
  let P := platform_with C (fun _ => true) 0%nat in
  let B := plain_batch C in
  @stop_after C B (@reuse_loop C P B 5 (Ok [1 # 100; 1 # 200]) 0%nat) =
  (Uncaught type_error, 0%nat, [@EvTrim C [1 # 100; 1 # 200] true true], false).
Proof.
  cbv zeta.
  exact (proj2 (@X10_batch_missing_onset (silent 16000 (lit "hello") 7)
                  (platform_with (silent 16000 (lit "hello") 7) (fun _ => true) 0%nat)
                  (plain_batch (silent 16000 (lit "hello") 7))
                  5 [1 # 100; 1 # 200] [1 # 100; 1 # 200] 0%nat eq_refl)
               eq_refl).
Defined.

(** X12, on a platform where only the recording is missing. *)
Lemma X12_witness :
  let C := simulated 16000 (lit "hello") 7 in
  let P := platform_with C (fun p => negb (pystr_eqb p (lit "sampled_audio.wav"))) 0%nat in
  let B := simulated_batch 16000 (lit "hello") 7 in
  let args := {| reuse_audio := true; args_hw_arch := hailo8; args_variant := base;
                 multi_process_service := false; real_time := false;
                 args_fast_mode := false; args_stream_output := false;
                 args_timing := false; args_chunk_length := Some 3 |} in
  exists x,
    @main_batch C P B args (Raise (lit "no such file")) [] =
    Some (x, 1000%nat,
          [EvPrint (lit "Audio file sampled_audio.wav not found. Please record audio first.")
                   newline],
          true)
    /\ (Ok tt = Ok tt -> x = Returned).
Proof.
  cbv zeta.
  exact (@X12_reuse_without_file (simulated 16000 (lit "hello") 7)
           (platform_with (simulated 16000 (lit "hello") 7)
              (fun p => negb (pystr_eqb p (lit "sampled_audio.wav"))) 0%nat)
           (simulated_batch 16000 (lit "hello") 7)
           {| reuse_audio := true; args_hw_arch := hailo8; args_variant := base;
              multi_process_service := false; real_time := false;
              args_fast_mode := false; args_stream_output := false;
              args_timing := false; args_chunk_length := Some 3 |}
           0%nat 5 (Raise (lit "no such file")) []
           eq_refl eq_refl eq_refl).
Defined.

(** X14, with an upper-case [Q] typed at the second prompt. *)
Lemma X14_witness :
  let C := simulated 16000 (lit "hello") 7 in
  let P := simulated_platform 16000 (lit "hello") 7 in
  let B := simulated_batch 16000 (lit "hello") 7 in
  let go := Round [] (Ok []) (Ok [1 # 2]) in
  let quit := Round (lit "Q") (Ok []) (Ok []) in
  @interactive_loop C B 5 ([go] ++ quit :: [go; go]) 0%nat =
  @interactive_loop C B 5 ([go] ++ [quit]) 0%nat.
Proof.
  cbv zeta.
  exact (proj2 (@X14_quit_ends_loop (simulated 16000 (lit "hello") 7)
                  (simulated_batch 16000 (lit "hello") 7)
                  5 [Round [] (Ok []) (Ok [1 # 2])]
                  [Round [] (Ok []) (Ok [1 # 2]); Round [] (Ok []) (Ok [1 # 2])]
                  (Round (lit "Q") (Ok []) (Ok [])) 0%nat eq_refl)).
Defined.

(** X15, on a pipeline that refuses the first frame. *)
Lemma X15_witness :
  let C := simulated 16000 (lit "hello") 0 in
  let B := simulated_batch 16000 (lit "hello") 0 in
  let go := Round [] (Ok []) (Ok [1 # 2]) in
  @stop_after C B (@interactive_loop C B 5 [go; go] 0%nat) =
  (Uncaught (lit "device busy"), 0%nat,
   [EvPrint (@prompt) [];
    @EvTrim C [1 # 2] true true;
    EvPreprocess [1 # 2] true 5 (8 # 10);
    @EvSend C 0%nat],
   false).
Proof.
  cbv zeta.
  exact (@X15_batch_fault_ends_main (simulated 16000 (lit "hello") 0)
           (simulated_batch 16000 (lit "hello") 0)
           5 (Round [] (Ok []) (Ok [1 # 2])) [Round [] (Ok []) (Ok [1 # 2])]
           0%nat 0%nat [] (lit "device busy")
           [@EvTrim (simulated 16000 (lit "hello") 0) [1 # 2] true true;
            EvPreprocess [1 # 2] true 5 (8 # 10);
            @EvSend (simulated 16000 (lit "hello") 0) 0%nat]
           ltac:(vm_compute; discriminate) eq_refl eq_refl).
Defined.

(** ** More on the real-time chunk *)

Section ChunkEdges.
Context {C : Collaborators}.
Variable cfg : Config.

(** X8. When the feature extractor yields no frame for a chunk, the chunk
    is consumed silently: the trimmer and the extractor are called, the
    pipeline is not touched, nothing is printed and no fault is logged. *)
Theorem X8_chunk_without_frames (chunk a : list sample) (onset : option Q)
        (hw0 : backend) :
  improve_input_audio chunk (negb (fast_mode cfg)) true = Ok (a, onset) ->
  preprocess (astype_float32 a) (is_nhwc cfg) (chunk_length cfg)
             (chunk_offset_of onset) = Ok [] ->
  process_chunk cfg chunk hw0 =
  (Ok tt, hw0,
   [EvTrim chunk (negb (fast_mode cfg)) true;
    EvPreprocess (astype_float32 a) (is_nhwc cfg) (chunk_length cfg)
                 (chunk_offset_of onset)]).
Proof.
  intros Ha Hp.
  pose proof (try_body_run cfg chunk hw0) as Hb. cbv zeta in Hb.
  rewrite Ha, Hp in Hb.
  change (for_mel cfg a [] hw0) with (Ok tt, hw0, @nil event) in Hb.
  cbv beta iota in Hb.
  pose proof (process_chunk_run cfg chunk hw0) as Hr.
  rewrite Hb in Hr. exact Hr.
Qed.


End ChunkEdges.

(** X8, on an extractor that yields nothing. *)
Lemma X8_witness :
  let C := {| mel := nat; backend := nat; SAMPLE_RATE := 16000;
              improve_input_audio := fun a _ _ => Ok (a, Some (1 # 2));
              preprocess := fun _ _ _ _ => Ok [];
              send_data := fun _ n => (Ok tt, S n);
              get_transcription := fun n => (Ok (lit "hello"), n);
              clean_transcription := fun s => Ok s;
              astype_float32 := fun a => a;
              mel_astype_float32 := fun m => m |} in
  let cfg := {| is_nhwc := true; chunk_length := 5; fast_mode := false;
                stream_output := false; timing := false |} in
  @process_chunk C cfg [1 # 2] 0%nat =
  (Ok tt, 0%nat,
   [@EvTrim C [1 # 2] true true; @EvPreprocess C [1 # 2] true 5 (6 # 20)]).
Proof.
  cbv zeta.
  exact (@X8_chunk_without_frames
           {| mel := nat; backend := nat; SAMPLE_RATE := 16000;
              improve_input_audio := fun a _ _ => Ok (a, Some (1 # 2));
              preprocess := fun _ _ _ _ => Ok [];
              send_data := fun _ n => (Ok tt, S n);
              get_transcription := fun n => (Ok (lit "hello"), n);
              clean_transcription := fun s => Ok s;
              astype_float32 := fun a => a;
              mel_astype_float32 := fun m => m |}
           {| is_nhwc := true; chunk_length := 5; fast_mode := false;
              stream_output := false; timing := false |}
           [1 # 2] [1 # 2] (Some (1 # 2)) 0%nat eq_refl eq_refl).
Defined.


(** ** Decorating twice *)

Section TimingNested.
Import timing_utils.
Variables heap args ret : Type.
Variable format_timing : pystr -> Q -> pystr.

(** X9. A function decorated twice still returns what the bare function
    returns. With timing on before and after a call that returns normally,
    two lines are added after whatever the function printed: the line of
    the inner decorator first, then the line of the outer one; the rest of
    the world is as the function left it. *)
Theorem X9_nested_time_function
        (inner outer : pystr) (func : pyfun heap args ret) (a : args) (w : world heap) :
  let twice := time_function format_timing outer (time_function format_timing inner func) in
  fst (twice a w) = fst (func a w)
  /\ forall res w1,
       SHOW_TIMING w = true ->
       func a w = (Ok res, w1) ->
       SHOW_TIMING w1 = true ->
       exists d1 d2,
         snd (twice a w) =
         World true (clock w1)
               (stdout w1 ++ [format_timing inner d1; format_timing outer d2])
               (user w1).
Proof.
  cbv zeta. split.
  - unfold time_function.
    destruct (SHOW_TIMING w); [|reflexivity].
    destruct (func a w) as [[res|e] w1]; reflexivity.
  - intros res w1 Hon Hf Hon1.
    exists (clock w1 - clock w), (clock w1 - clock w).
    unfold time_function, time_time, timed_print. rewrite Hon, Hf.
    cbn. rewrite Hon1. cbn. rewrite <- app_assoc. reflexivity.
Qed.

End TimingNested.

(** X9, on a function that adds one to its argument, prints a line and
    lets one second pass. *)
Lemma X9_witness :
  let func := fun (a : nat) (w : timing_utils.world unit) =>
                (Ok (S a),
                 timing_utils.World (timing_utils.SHOW_TIMING w)
                   (timing_utils.clock w + 1)
                   (timing_utils.stdout w ++ [lit "working"]) tt) in
  let w := timing_utils.World true 0 [] tt in
  exists d1 d2 : Q,
    snd (timing_utils.time_function (fun name _ => name) (lit "outer")
           (timing_utils.time_function (fun name _ => name) (lit "inner") func) 3%nat w) =
    timing_utils.World true (0 + 1) ([] ++ [lit "working"] ++ [lit "inner"; lit "outer"]) tt.
Proof.
  cbv zeta.
  destruct (proj2 (@X9_nested_time_function unit nat nat (fun name _ => name)
                     (lit "inner") (lit "outer")
                     (fun (a : nat) (w : timing_utils.world unit) =>
                        (Ok (S a),
                         timing_utils.World (timing_utils.SHOW_TIMING w)
                           (timing_utils.clock w + 1)
                           (timing_utils.stdout w ++ [lit "working"]) tt))
                     3%nat (timing_utils.World true 0 [] tt))
                  4%nat _ eq_refl eq_refl eq_refl) as (d1 & d2 & H).
  exists d1, d2. exact H.
Defined.
